(** * COMPTETONSTOCK ai-crypto-demo: the simulation engine, embedded in Rocq

    A shallow embedding of the simulation core of the demo backend
    ([backend/app/models/blockchain.py] and the four modules under
    [backend/app/modules/]) together with the properties the specification
    states about it.

    Modelling conventions.
    - Python [float] values are modelled as exact rationals ([Q]); equality
      of amounts is [Qeq] ([==]).  Rounding error of binary64 arithmetic is
      outside the model.
    - Python [dict] objects are [gmap]s, lists are lists, [Optional] is
      [option].
    - [datetime.now().timestamp()] and the draws of [random] are explicit
      arguments of the operations that consult them.
    - [hashlib.sha256] is implemented below (FIPS 180-4) and checked against
      the standard test vectors; [repr] of a float is a method of the class
      [PyFloat], so that the general theorems hold for every rendering.
    - Strings are ASCII strings. *)

From Stdlib Require Import ZArith QArith Qround Qpower Lqa Lia List Bool.
From Stdlib Require Import Ascii String DecimalString.
From stdpp Require Import base option list gmap strings fin_maps.

Set Default Proof Using "Type".

(* ===================================================================== *)
(** ** hashlib.sha256 *)
(* ===================================================================== *)

Module SHA256.
Local Open Scope Z_scope.

(** 32-bit words are integers in [0, 2^32); every addition wraps. *)
Definition wrap32 (x : Z) : Z := x mod 4294967296.
Definition add32 (x y : Z) : Z := wrap32 (x + y).
Definition not32 (x : Z) : Z := Z.lxor x 4294967295.
Definition rotr (n x : Z) : Z :=
  Z.lor (Z.shiftr x n) (wrap32 (Z.shiftl x (32 - n))).

Definition ch (x y z : Z) : Z := Z.lxor (Z.land x y) (Z.land (not32 x) z).
Definition maj (x y z : Z) : Z :=
  Z.lxor (Z.lxor (Z.land x y) (Z.land x z)) (Z.land y z).
Definition bsig0 (x : Z) : Z := Z.lxor (Z.lxor (rotr 2 x) (rotr 13 x)) (rotr 22 x).
Definition bsig1 (x : Z) : Z := Z.lxor (Z.lxor (rotr 6 x) (rotr 11 x)) (rotr 25 x).
Definition ssig0 (x : Z) : Z := Z.lxor (Z.lxor (rotr 7 x) (rotr 18 x)) (Z.shiftr x 3).
Definition ssig1 (x : Z) : Z := Z.lxor (Z.lxor (rotr 17 x) (rotr 19 x)) (Z.shiftr x 10).

(** The constants are the leading 32 fractional bits of the square roots
    (initial state) and cube roots (round constants) of the first primes;
    they are computed rather than tabulated. *)
Definition primes64 : list Z :=
  [2; 3; 5; 7; 11; 13; 17; 19; 23; 29; 31; 37; 41; 43; 47; 53;
   59; 61; 67; 71; 73; 79; 83; 89; 97; 101; 103; 107; 109; 113; 127; 131;
   137; 139; 149; 151; 157; 163; 167; 173; 179; 181; 191; 193; 197; 199;
   211; 223; 227; 229; 233; 239; 241; 251; 257; 263; 269; 271; 277; 281;
   283; 293; 307; 311].

(** Integer cube root by bisection: the largest [r] in [lo, hi) with
    [r^3 <= n]. *)
Fixpoint icbrt_bisect (fuel : nat) (n lo hi : Z) : Z :=
  match fuel with
  | O => lo
  | S fuel' =>
      if hi - lo <=? 1 then lo
      else
        let mid := (lo + hi) / 2 in
        if mid * mid * mid <=? n then icbrt_bisect fuel' n mid hi
        else icbrt_bisect fuel' n lo mid
  end.

Definition icbrt (n : Z) : Z := icbrt_bisect 64 n 0 (2 ^ 40).

Definition init_state : list Z :=
  Eval vm_compute in
    map (fun p => wrap32 (Z.sqrt (p * 2 ^ 64))) (firstn 8 primes64).

Definition round_constants : list Z :=
  Eval vm_compute in map (fun p => wrap32 (icbrt (p * 2 ^ 96))) primes64.

(** Message padding: one [0x80] byte, zeros up to 56 mod 64, then the bit
    length as a 64-bit big-endian integer. *)
Fixpoint be_bytes (n : nat) (x : Z) : list Z :=
  match n with
  | O => []
  | S n' => be_bytes n' (Z.shiftr x 8) ++ [Z.land x 255]
  end.

Definition pad (msg : list Z) : list Z :=
  let len := Z.of_nat (length msg) in
  let zeros := Z.to_nat ((55 - len) mod 64) in
  msg ++ [128] ++ repeat 0 zeros ++ be_bytes 8 (8 * len).

Fixpoint be_words (fuel : nat) (bs : list Z) : list Z :=
  match fuel, bs with
  | S fuel', b0 :: b1 :: b2 :: b3 :: rest =>
      (Z.shiftl b0 24 + Z.shiftl b1 16 + Z.shiftl b2 8 + b3)
        :: be_words fuel' rest
  | _, _ => []
  end.

(** Message schedule, kept newest-first while it is extended. *)
Fixpoint extend_schedule (n : nat) (rev_w : list Z) : list Z :=
  match n with
  | O => rev_w
  | S n' =>
      let wt :=
        add32 (add32 (ssig1 (nth 1 rev_w 0)) (nth 6 rev_w 0))
              (add32 (ssig0 (nth 14 rev_w 0)) (nth 15 rev_w 0)) in
      extend_schedule n' (wt :: rev_w)
  end.

Definition schedule (block : list Z) : list Z :=
  rev (extend_schedule 48 (rev block)).

Record regs := Regs { ra : Z; rb : Z; rc : Z; rd : Z;
                      re : Z; rf : Z; rg : Z; rh : Z }.

Definition round (s : regs) (kw : Z * Z) : regs :=
  let t1 := add32 (add32 (add32 (rh s) (bsig1 (re s)))
                         (add32 (ch (re s) (rf s) (rg s)) (fst kw))) (snd kw) in
  let t2 := add32 (bsig0 (ra s)) (maj (ra s) (rb s) (rc s)) in
  Regs (add32 t1 t2) (ra s) (rb s) (rc s) (add32 (rd s) t1) (re s) (rf s) (rg s).

Definition regs_of_list (l : list Z) : regs :=
  Regs (nth 0 l 0) (nth 1 l 0) (nth 2 l 0) (nth 3 l 0)
       (nth 4 l 0) (nth 5 l 0) (nth 6 l 0) (nth 7 l 0).

Definition list_of_regs (s : regs) : list Z :=
  [ra s; rb s; rc s; rd s; re s; rf s; rg s; rh s].

Definition compress (h : list Z) (block : list Z) : list Z :=
  let s := fold_left round (combine round_constants (schedule block))
                     (regs_of_list h) in
  map (fun p => add32 (fst p) (snd p)) (combine h (list_of_regs s)).

Fixpoint blocks (fuel : nat) (ws : list Z) : list (list Z) :=
  match fuel with
  | O => []
  | S fuel' =>
      match ws with
      | [] => []
      | _ => firstn 16 ws :: blocks fuel' (skipn 16 ws)
      end
  end.

Definition digest_words (msg : list Z) : list Z :=
  let bytes := pad msg in
  let ws := be_words (length bytes) bytes in
  fold_left compress (blocks (length ws) ws) init_state.

Definition hex_digit (d : Z) : ascii :=
  if d <? 10 then ascii_of_N (Z.to_N (48 + d))
  else ascii_of_N (Z.to_N (87 + d)).

Fixpoint hex_of (n : nat) (x : Z) : list ascii :=
  match n with
  | O => []
  | S n' => hex_of n' (Z.shiftr x 4) ++ [hex_digit (Z.land x 15)]
  end.

Definition bytes_of_string (s : string) : list Z :=
  map (fun c => Z.of_N (N_of_ascii c)) (list_ascii_of_string s).

(** [hashlib.sha256(s.encode()).hexdigest()] for an ASCII string [s]. *)
Definition hexdigest (s : string) : string :=
  string_of_list_ascii
    (concat (map (hex_of 8) (digest_words (bytes_of_string s)))).

End SHA256.

(* ===================================================================== *)
(** ** Python values: comparisons, decimal rendering, json.dumps *)
(* ===================================================================== *)

(** [a < b] and [a <= b] on floats, as booleans. *)
Definition Qltb (a b : Q) : bool := negb (Qle_bool b a).
Definition Qleb (a b : Q) : bool := Qle_bool a b.

(** Python's two-argument [max] and [min] keep the first argument unless
    the second one is strictly larger (resp. smaller). *)
Definition py_max (a b : Q) : Q := if Qltb a b then b else a.
Definition py_min (a b : Q) : Q := if Qltb b a then b else a.

(** [repr] of a float, used by f-strings and by [json.dumps]. *)
Class PyFloat := float_repr : Q -> string.

Definition str_of_Z (z : Z) : string := NilZero.string_of_int (Z.to_int z).

(** A positional decimal rendering: sign, integer part, a point and the
    fractional digits, at least one and at most [digits] of them.  It
    agrees with Python's [repr] on the floats whose shortest decimal form
    is positional and fits the digit budget, such as [30.0], [0.5] or
    [1700000000.25]. *)
Fixpoint frac_digits (digits : nat) (num den : Z) : string :=
  match digits with
  | O => ""
  | S d =>
      let n10 := (10 * num)%Z in
      let rest := (n10 mod den)%Z in
      str_of_Z (n10 / den) +:+
        (if (rest =? 0)%Z then "" else frac_digits d rest den)
  end.

Definition decimal_repr (q : Q) : string :=
  let n := Z.abs (Qnum q) in
  let d := Zpos (Qden q) in
  (if (Qnum q <? 0)%Z then "-" else "") +:+
  str_of_Z (n / d) +:+ "." +:+ frac_digits 17 (n mod d) d.

#[export] Instance decimal_float : PyFloat := decimal_repr.

Module Json.

#[local] Unset Elimination Schemes.
Inductive value :=
| Null
| Int (z : Z)
| Float (q : Q)
| Str (s : string)
| Arr (l : list value)
| Dict (kv : list (string * value)).
#[local] Set Elimination Schemes.

Definition char (n : N) : string := String (ascii_of_N n) EmptyString.

Definition hex4 (n : N) : string :=
  string_of_list_ascii (SHA256.hex_of 4 (Z.of_N n)).

(** Escaping of one character, as [json.dumps] does with its default
    [ensure_ascii=True]: everything outside the printable ASCII range is
    written as a [\u] escape.  Strings are sequences of one-byte
    characters, read as code points below 256. *)
Definition escape_char (c : ascii) : string :=
  let n := N_of_ascii c in
  if (n =? 34)%N then char 92 +:+ char 34
  else if (n =? 92)%N then char 92 +:+ char 92
  else if (n =? 10)%N then char 92 +:+ "n"
  else if (n =? 13)%N then char 92 +:+ "r"
  else if (n =? 9)%N then char 92 +:+ "t"
  else if (n =? 8)%N then char 92 +:+ "b"
  else if (n =? 12)%N then char 92 +:+ "f"
  else if ((n <? 32) || (126 <? n))%N then char 92 +:+ "u" +:+ hex4 n
  else String c EmptyString.

Fixpoint escape (s : string) : string :=
  match s with
  | EmptyString => EmptyString
  | String c s' => escape_char c +:+ escape s'
  end.

Definition quote (s : string) : string := char 34 +:+ escape s +:+ char 34.

Fixpoint join (sep : string) (l : list string) : string :=
  match l with
  | [] => ""
  | [x] => x
  | x :: l' => x +:+ sep +:+ join sep l'
  end.

(** [sort_keys=True]: insertion sort of the items on their keys. *)
Fixpoint insert_item (kv : string * string) (l : list (string * string))
  : list (string * string) :=
  match l with
  | [] => [kv]
  | kv' :: l' =>
      if String.leb (fst kv) (fst kv') then kv :: l
      else kv' :: insert_item kv l'
  end.

Definition sort_items (l : list (string * string)) : list (string * string) :=
  foldr insert_item [] l.

(** [json.dumps(v, sort_keys=True)] with the default separators. *)
Fixpoint dumps `{PyFloat} (v : value) : string :=
  match v with
  | Null => "null"
  | Int z => str_of_Z z
  | Float q => float_repr q
  | Str s => quote s
  | Arr l => "[" +:+ join ", " (map dumps l) +:+ "]"
  | Dict kv =>
      "{" +:+
      join ", "
        (map (fun it => quote (fst it) +:+ ": " +:+ snd it)
             (sort_items (map (fun it => (fst it, dumps (snd it))) kv)))
      +:+ "}"
  end.

End Json.

(* ===================================================================== *)
(** ** models/blockchain.py *)
(* ===================================================================== *)

(** [Transaction] objects are mutable and shared: the pending queue, the
    sealed blocks and the callers of [add_transaction] all hold the same
    object, and [BlockchainSimulator.create_block] writes its [block_index]
    after the block was built.  They therefore live in an object store
    ([heap], a list indexed by reference); queues and blocks hold
    references.  Blocks are never written after their construction by the
    code itself and are plain values. *)
Abbreviation tx_ref := nat.

Module Transaction.

Record t := mk {
  tx_hash : string;
  from_address : string;
  to_address : string;
  amount : Q;
  timestamp : Q;
  block_index : option nat
}.

Section WithFloat.
Context `{PyFloat}.

(** [_generate_hash]: the first 16 hex digits of the digest of the
    f-string [from_address to_address amount timestamp]. *)
Definition _generate_hash (tx : t) : string :=
  let data := from_address tx +:+ to_address tx
              +:+ float_repr (amount tx) +:+ float_repr (timestamp tx) in
  substring 0 16 (SHA256.hexdigest data).

(** [model_post_init]: an empty [tx_hash] is replaced by the generated one. *)
Definition model_post_init (tx : t) : t :=
  if String.eqb (tx_hash tx) "" then
    mk (_generate_hash tx) (from_address tx) (to_address tx)
       (amount tx) (timestamp tx) (block_index tx)
  else tx.

(** [Transaction(from_address=.., to_address=.., amount=..)]; the default
    timestamp is the clock reading [now]. *)
Definition new (from_addr to_addr : string) (amt now : Q) : t :=
  model_post_init (mk "" from_addr to_addr amt now None).

(** [model_dump()], in field order. *)
Definition model_dump (tx : t) : Json.value :=
  Json.Dict
    [("tx_hash", Json.Str (tx_hash tx));
     ("from_address", Json.Str (from_address tx));
     ("to_address", Json.Str (to_address tx));
     ("amount", Json.Float (amount tx));
     ("timestamp", Json.Float (timestamp tx));
     ("block_index",
       match block_index tx with
       | Some i => Json.Int (Z.of_nat i)
       | None => Json.Null
       end)].

End WithFloat.

(** [tx.block_index = i] *)
Definition set_block_index (i : nat) (tx : t) : t :=
  mk (tx_hash tx) (from_address tx) (to_address tx)
     (amount tx) (timestamp tx) (Some i).

End Transaction.

Abbreviation heap := (list Transaction.t).

Module Block.

Record t := mk {
  index : nat;
  timestamp : Q;
  transactions : list tx_ref;
  previous_hash : string;
  hash : string;
  nonce : Z
}.

Section WithFloat.
Context `{PyFloat}.

(** The dump of the transaction a reference points to.  Every reference
    held by a queue or a block points into the store; the [None] case is
    there for totality only. *)
Definition dump_ref (h : heap) (r : tx_ref) : Json.value :=
  match h !! r with
  | Some tx => Transaction.model_dump tx
  | None => Json.Null
  end.

(** [_generate_hash]: the digest of the canonical JSON of every field but
    [hash]; the transactions are read from the store at the time of the
    call. *)
Definition _generate_hash (h : heap) (b : t) : string :=
  let block_data :=
    Json.Dict
      [("index", Json.Int (Z.of_nat (index b)));
       ("timestamp", Json.Float (timestamp b));
       ("transactions", Json.Arr (map (dump_ref h) (transactions b)));
       ("previous_hash", Json.Str (previous_hash b));
       ("nonce", Json.Int (nonce b))] in
  SHA256.hexdigest (Json.dumps block_data).

Definition model_post_init (h : heap) (b : t) : t :=
  if String.eqb (hash b) "" then
    mk (index b) (timestamp b) (transactions b) (previous_hash b)
       (_generate_hash h b) (nonce b)
  else b.

(** [Block(index=.., previous_hash=.., transactions=..)] *)
Definition new (h : heap) (idx : nat) (prev : string) (txs : list tx_ref)
    (now : Q) : t :=
  model_post_init h (mk idx now txs prev "" 0).

End WithFloat.

(** Direct writes to the stored fields of a block. *)
Definition set_hash (v : string) (b : t) : t :=
  mk (index b) (timestamp b) (transactions b) (previous_hash b) v (nonce b).

Definition set_previous_hash (v : string) (b : t) : t :=
  mk (index b) (timestamp b) (transactions b) v (hash b) (nonce b).

End Block.

Module Blockchain.

Record t := mk {
  chain : list Block.t;
  pending_transactions : list tx_ref
}.

Definition zero_hash : string :=
  "0000000000000000000000000000000000000000000000000000000000000000".

Section WithFloat.
Context `{PyFloat}.

(** [Blockchain()]: the chain starts empty, so [model_post_init] appends
    the genesis block. *)
Definition new (h : heap) (now : Q) : t :=
  mk [Block.new h 0 zero_hash [] now] [].

(** [get_latest_block]: [self.chain[-1]], an [IndexError] on an empty
    chain. *)
Definition get_latest_block (bc : t) : option Block.t := last (chain bc).

Definition add_transaction (bc : t) (r : tx_ref) : t :=
  mk (chain bc) (pending_transactions bc ++ [r]).

(** [create_block(transactions)]: [None] when [get_latest_block] raises. *)
Definition create_block (h : heap) (bc : t)
    (transactions : option (list tx_ref)) (now : Q) : option (Block.t * t) :=
  let txs := match transactions with
             | Some l => l
             | None => pending_transactions bc
             end in
  match get_latest_block bc with
  | None => None
  | Some latest =>
      let new_block :=
        Block.new h (length (chain bc)) (Block.hash latest) txs now in
      Some (new_block,
            mk (chain bc ++ [new_block])
               (match transactions with
                | None => []
                | Some _ => pending_transactions bc
                end))
  end.

(** The body of the loop of [is_valid] for [current = chain[i]] and
    [previous = chain[i-1]]; [true] when both checks pass. *)
Definition check_block (h : heap) (previous current : Block.t) : bool :=
  if negb (String.eqb (Block.previous_hash current) (Block.hash previous))
  then false
  else if negb (String.eqb (Block.hash current) (Block._generate_hash h current))
  then false
  else true.

Fixpoint is_valid_from (h : heap) (previous : Block.t) (rest : list Block.t)
  : bool :=
  match rest with
  | [] => true
  | current :: rest' =>
      if check_block h previous current then is_valid_from h current rest'
      else false
  end.

(** [is_valid]: the loop runs over [i = 1 .. len(chain) - 1]. *)
Definition is_valid (h : heap) (bc : t) : bool :=
  match chain bc with
  | [] => true
  | genesis :: rest => is_valid_from h genesis rest
  end.

End WithFloat.

End Blockchain.

(* ===================================================================== *)
(** ** modules/blockchain_simulator.py *)
(* ===================================================================== *)

Module BlockchainSimulator.

Record t := mk {
  blockchain : Blockchain.t;
  ledger : gmap string Q;
  block_time : Q;
  last_block_time : Q;
  objects : heap   (* the Transaction objects created so far *)
}.

(** [self.ledger.get(address, 0)] *)
Definition get_balance (s : t) (address : string) : Q :=
  default 0%Q (ledger s !! address).


Definition get_pending_transactions (s : t) : list tx_ref :=
  Blockchain.pending_transactions (blockchain s).

Definition get_chain (s : t) : list Block.t := Blockchain.chain (blockchain s).

Section WithFloat.
Context `{PyFloat}.

(** [BlockchainSimulator()]; the two clock readings are those of the
    genesis block and of [last_block_time]. *)
Definition init (now_genesis now_last : Q) : t :=
  mk (Blockchain.new [] now_genesis) ∅ 2 now_last [].

Definition initialize (s : t) (initial_distribution : gmap string Q) : t :=
  mk (blockchain s) initial_distribution (block_time s) (last_block_time s)
     (objects s).

(** [add_transaction]: [None] is the rejection, [Some r] the reference of
    the transaction created. *)
Definition add_transaction (s : t) (from_addr to_addr : string)
    (amount now : Q) : option tx_ref * t :=
  if negb (String.eqb from_addr "SYSTEM") && Qltb (get_balance s from_addr) amount
  then (None, s)
  else if Qleb amount 0 then (None, s)
  else
    let tx := Transaction.new from_addr to_addr amount now in
    let r := length (objects s) in
    let ledger1 :=
      if negb (String.eqb from_addr "SYSTEM")
      then <[from_addr := (get_balance s from_addr - amount)%Q]> (ledger s)
      else ledger s in
    let ledger2 :=
      <[to_addr := (default 0%Q (ledger1 !! to_addr) + amount)%Q]> ledger1 in
    (Some r,
     mk (Blockchain.add_transaction (blockchain s) r) ledger2
        (block_time s) (last_block_time s) (objects s ++ [tx])).

(** The loop [for tx in block.transactions: tx.block_index = block.index]. *)
Definition stamp (idx : nat) (refs : list tx_ref) (h : heap) : heap :=
  fold_left (fun h' r => alter (Transaction.set_block_index idx) r h') refs h.

(** [create_block]: seals the pending queue, then stamps the transactions
    of the new block.  [None] when the chain is empty ([IndexError]). *)
Definition create_block (s : t) (now_block now_last : Q)
  : option (Block.t * t) :=
  match Blockchain.create_block (objects s) (blockchain s) None now_block with
  | None => None
  | Some (block, bc') =>
      Some (block,
            mk bc' (ledger s) (block_time s) now_last
               (stamp (Block.index block) (Block.transactions block) (objects s)))
  end.

(** [should_create_block] at clock reading [now]. *)
Definition should_create_block (s : t) (now : Q) : bool :=
  Qleb (block_time s) (now - last_block_time s)
  && (0 <? length (get_pending_transactions s))%nat.

Definition is_valid (s : t) : bool :=
  Blockchain.is_valid (objects s) (blockchain s).

(** [get_stats]: the dictionary it returns, as a record. *)
Record stats := mk_stats {
  blocks : nat;
  total_transactions : nat;
  pending_transactions : nat;
  unique_addresses : nat;
  stats_is_valid : bool
}.

(** [get_total_transactions]: the transactions of all blocks, counted. *)
Definition get_total_transactions (s : t) : nat :=
  sum_list (map (fun block => length (Block.transactions block)) (get_chain s)).

Definition get_stats (s : t) : stats :=
  mk_stats (length (get_chain s)) (get_total_transactions s)
           (length (get_pending_transactions s)) (size (ledger s))
           (is_valid s).

End WithFloat.

End BlockchainSimulator.

(* ===================================================================== *)
(** ** modules/price_simulator.py *)
(* ===================================================================== *)

Module PriceSimulator.
Local Open Scope Q_scope.

Record t := mk {
  initial_price : Q;
  current_price : Q;
  volatility : Q;
  price_history : list (Q * Q);
  trend : Q;
  trend_strength : Q;
  trend_decay : Q;
  mean_price : Q;
  reversion_strength : Q;
  support_levels : list Q;
  resistance_levels : list Q;
  all_time_high : Q;
  all_time_low : Q;
  price_changes : list Q
}.

(** The price below which [update_price] never returns. *)
Definition floor_price : Q := 0.0001.

(** [PriceSimulator(initial_price, volatility)] at clock reading [now]. *)
Definition init (initial volatility_cap now : Q) : t :=
  mk initial initial volatility_cap [(now, initial)]
     0 0.3 0.95 initial 0.1 [] [] initial initial [].

Definition with_trend (p : t) (v : Q) : t :=
  mk (initial_price p) (current_price p) (volatility p) (price_history p)
     v (trend_strength p) (trend_decay p) (mean_price p)
     (reversion_strength p) (support_levels p) (resistance_levels p)
     (all_time_high p) (all_time_low p) (price_changes p).

Definition add_support_level (p : t) (price : Q) : t :=
  mk (initial_price p) (current_price p) (volatility p) (price_history p)
     (trend p) (trend_strength p) (trend_decay p) (mean_price p)
     (reversion_strength p) (support_levels p ++ [price]) (resistance_levels p)
     (all_time_high p) (all_time_low p) (price_changes p).

Definition add_resistance_level (p : t) (price : Q) : t :=
  mk (initial_price p) (current_price p) (volatility p) (price_history p)
     (trend p) (trend_strength p) (trend_decay p) (mean_price p)
     (reversion_strength p) (support_levels p) (resistance_levels p ++ [price])
     (all_time_high p) (all_time_low p) (price_changes p).

(** [add_market_impact]: the impact factor and the state with the blended
    trend. *)
Definition add_market_impact (p : t) (buy_volume sell_volume total_supply : Q)
  : Q * t :=
  if Qeq_bool total_supply 0 then (0, p)
  else
    let net_flow := buy_volume - sell_volume in
    let impact := (net_flow / total_supply) * 0.1 in
    (impact,
     with_trend p (trend p * trend_decay p + impact * (1 - trend_decay p))).

(** [_brownian_motion] is [random.gauss(0, volatility)]; its outcome is the
    argument [gauss] of [update_price]. *)

Definition _mean_reversion (p : t) : Q :=
  if Qeq_bool (mean_price p) 0 then 0
  else
    let deviation := (mean_price p - current_price p) / mean_price p in
    deviation * reversion_strength p.

Definition _trend_component (p : t) : Q := trend p * trend_strength p.

(** One iteration of each of the two loops of
    [_support_resistance_effect]. *)
Definition near_support (price support : Q) : bool :=
  Qleb (0.95 * support) price && Qleb price support.

Definition near_resistance (price resistance : Q) : bool :=
  Qleb resistance price && Qleb price (1.05 * resistance).

Definition _support_resistance_effect (p : t) : Q :=
  let effect :=
    fold_left
      (fun effect support =>
         if near_support (current_price p) support then effect + 0.02
         else effect)
      (support_levels p) 0 in
  fold_left
    (fun effect resistance =>
       if near_resistance (current_price p) resistance then effect - 0.02
       else effect)
    (resistance_levels p) effect.

(** The capped change of one tick, for the Gaussian draw [gauss]. *)
Definition change_factor (p : t) (gauss : Q) : Q :=
  let total_change :=
    gauss + _mean_reversion p + _trend_component p
    + _support_resistance_effect p in
  py_max (- volatility p) (py_min (volatility p) total_change).

(** [update_price(timestamp)]: the new price and the new state.  [now] is
    the clock reading used when no timestamp is given. *)
Definition update_price (p : t) (timestamp : option Q) (now gauss : Q)
  : Q * t :=
  let timestamp := default now timestamp in
  let new_price := current_price p * (1 + change_factor p gauss) in
  let new_price := py_max floor_price new_price in
  let price_change :=
    if Qltb 0 (current_price p)
    then (new_price - current_price p) / current_price p
    else 0 in
  (new_price,
   mk (initial_price p) new_price (volatility p)
      (price_history p ++ [(timestamp, new_price)])
      (trend p * trend_decay p) (trend_strength p) (trend_decay p)
      (mean_price p * 0.99 + new_price * 0.01)
      (reversion_strength p) (support_levels p) (resistance_levels p)
      (py_max (all_time_high p) new_price)
      (py_min (all_time_low p) new_price)
      (price_changes p ++ [price_change])).

(** [price_sim.volatility = v], the write [run_simulation] makes before its
    loop. *)
Definition with_volatility (p : t) (v : Q) : t :=
  mk (initial_price p) (current_price p) v (price_history p)
     (trend p) (trend_strength p) (trend_decay p) (mean_price p)
     (reversion_strength p) (support_levels p) (resistance_levels p)
     (all_time_high p) (all_time_low p) (price_changes p).

(** [set_initial_price(price)] at clock reading [now]; [price_changes],
    the trend and the levels are left as they are. *)
Definition set_initial_price (p : t) (price now : Q) : t :=
  mk price price (volatility p) [(now, price)]
     (trend p) (trend_strength p) (trend_decay p) price
     (reversion_strength p) (support_levels p) (resistance_levels p)
     price price (price_changes p).

Definition get_current_price (p : t) : Q := current_price p.

(** [get_price_change_24h]: the change in percent against the first price
    of the history; 0 with fewer than two entries or a first price of 0. *)
Definition get_price_change_24h (p : t) : Q :=
  if (length (price_history p) <? 2)%nat then 0
  else
    match price_history p with
    | [] => 0
    | (_, old_price) :: _ =>
        if Qeq_bool old_price 0 then 0
        else ((current_price p - old_price) / old_price) * 100
    end.

(** [get_chart_data(limit)]: [price_history[-limit:]] when [limit] is not
    0, the whole history otherwise.  A slice that starts before the list
    starts at its head; a negative [limit] makes the slice [history[k:]]
    with [k = -limit]. *)
Definition get_chart_data (p : t) (limit : Z) : list (Q * Q) :=
  let history := price_history p in
  if (limit =? 0)%Z then history
  else if (0 <? limit)%Z
  then drop (length history - Z.to_nat limit) history
  else drop (Z.to_nat (- limit)) history.

(** The support/resistance component as the specification words it: a
    support level counts when the price sits within 5% above it, a
    resistance level when the price sits within 5% below it. *)
Definition spec_within_above (price level : Q) : bool :=
  Qleb level price && Qleb price (1.05 * level).

Definition spec_within_below (price level : Q) : bool :=
  Qleb (0.95 * level) price && Qleb price level.

Definition spec_support_resistance (p : t) : Q :=
  fold_right Qplus 0
    (map (fun s => if spec_within_above (current_price p) s then 0.02 else 0)
         (support_levels p))
  + fold_right Qplus 0
      (map (fun r => if spec_within_below (current_price p) r then - 0.02 else 0)
           (resistance_levels p)).

End PriceSimulator.

(* ===================================================================== *)
(** ** models/cryptocurrency.py and modules/tokenomics_engine.py *)
(* ===================================================================== *)

Module TokenomicsConfig.

Record t := mk {
  total_supply : Q;
  initial_price : Q;
  inflation_rate : Q;
  block_reward : Q;
  holder_distribution : gmap string Q;
  stability_factor : Q;
  min_price : Q;
  max_price : Q
}.

(** [TokenomicsConfig()] with every field at its default. *)
Definition default_config : t :=
  mk 1000000%Q 0.01%Q 0.02%Q 50%Q ∅ 0.1%Q 0.0001%Q 1000%Q.

End TokenomicsConfig.

Module TokenomicsEngine.
Local Open Scope Q_scope.

Record t := mk {
  config : TokenomicsConfig.t;
  circulating_supply : Q;
  total_supply : Q;
  current_price : Q;
  buy_pressure : Q;
  sell_pressure : Q;
  price_history : list (Q * Q)
}.

(** [TokenomicsEngine(config)] *)
Definition init (cfg : option TokenomicsConfig.t) : t :=
  let cfg := default TokenomicsConfig.default_config cfg in
  mk cfg 0 (TokenomicsConfig.total_supply cfg)
     (TokenomicsConfig.initial_price cfg) 0 0 [].

(** [initialize(crypto)], given the three fields of [crypto] it reads. *)
Definition initialize (e : t) (crypto_total crypto_price crypto_circulating : Q)
  : t :=
  mk (config e) crypto_circulating crypto_total crypto_price
     (buy_pressure e) (sell_pressure e) (price_history e).

Definition with_supply (e : t) (v : Q) : t :=
  mk (config e) v (total_supply e) (current_price e)
     (buy_pressure e) (sell_pressure e) (price_history e).

(** [update_supply(amount, is_mint)]: the new supply and the new state. *)
Definition update_supply (e : t) (amount : Q) (is_mint : bool) : Q * t :=
  let supply :=
    if is_mint then py_min (circulating_supply e + amount) (total_supply e)
    else py_max 0 (circulating_supply e - amount) in
  (supply, with_supply e supply).

Definition add_buy_pressure (e : t) (amount : Q) : t :=
  mk (config e) (circulating_supply e) (total_supply e) (current_price e)
     (buy_pressure e + amount) (sell_pressure e) (price_history e).

Definition add_sell_pressure (e : t) (amount : Q) : t :=
  mk (config e) (circulating_supply e) (total_supply e) (current_price e)
     (buy_pressure e) (sell_pressure e + amount) (price_history e).

(** [calculate_price(timestamp)]: the new price and the new state. *)
Definition calculate_price (e : t) (timestamp : Q) : Q * t :=
  let net_pressure := buy_pressure e - sell_pressure e in
  let pressure_ratio :=
    if Qltb 0 (circulating_supply e)
    then net_pressure / circulating_supply e
    else 0 in
  let price_change :=
    pressure_ratio * TokenomicsConfig.stability_factor (config e) in
  let new_price := current_price e * (1 + price_change) in
  let new_price :=
    py_max (TokenomicsConfig.min_price (config e))
           (py_min (TokenomicsConfig.max_price (config e)) new_price) in
  (new_price,
   mk (config e) (circulating_supply e) (total_supply e) new_price
      (buy_pressure e * 0.9) (sell_pressure e * 0.9)
      (price_history e ++ [(timestamp, new_price)])).

(** [apply_block_reward(miner_address)]: the reward returned and the new
    state. *)
Definition apply_block_reward (e : t) (miner_address : string) : Q * t :=
  let reward := TokenomicsConfig.block_reward (config e) in
  let reward :=
    if Qltb (total_supply e) (circulating_supply e + reward)
    then total_supply e - circulating_supply e
    else reward in
  if Qltb 0 reward then (reward, snd (update_supply e reward true))
  else (reward, e).

Definition get_inflation (e : t) : Q :=
  TokenomicsConfig.inflation_rate (config e).




End TokenomicsEngine.

(* ===================================================================== *)
(** ** modules/transaction_generator.py *)
(* ===================================================================== *)

(** [round(x, ndigits)]: to the nearest multiple of [10^-ndigits], ties to
    the even one. *)
Definition round_half_even (x : Q) : Z :=
  let f := Qfloor x in
  let r := (x - inject_Z f)%Q in
  if Qltb r 0.5 then f
  else if Qltb 0.5 r then (f + 1)%Z
  else if Z.even f then f else (f + 1)%Z.

Definition py_round (x : Q) (ndigits : nat) : Q :=
  let scale := inject_Z (10 ^ Z.of_nat ndigits) in
  (inject_Z (round_half_even (x * scale)) / scale)%Q.

(** [random.uniform(a, b)] for the draw [u] of [random.random()]. *)
Definition uniform (a b u : Q) : Q := (a + (b - a) * u)%Q.

Module TransactionGenerator.
Local Open Scope Q_scope.

Inductive TransactionType := BUY | SELL | TRANSFER.

Record GeneratedTransaction := mk_tx {
  tx_type : TransactionType;
  from_address : string;
  to_address : string;
  amount : Q
}.

Record t := mk {
  wallets : list string;
  wallet_balances : gmap string Q;
  exchange_address : string;
  treasury_address : string;
  buy_probability : Q;
  sell_probability : Q;
  transfer_probability : Q;
  min_amount : Q;
  max_amount : Q;
  whale_threshold : Q
}.

(** What one call of [get_random_wallet] draws: the index picked by
    [random.choice], and the two [random.random()] values that
    [_generate_address] consumes when there is no candidate. *)
Record wallet_draw := mk_wallet_draw {
  choice : nat;
  fresh1 : Q;
  fresh2 : Q
}.

(** What one call of [generate_transaction] draws, in program order. *)
Record draws := mk_draws {
  rand_type : Q;      (* random.random() deciding the type *)
  rand_whale : Q;     (* random.random() deciding whale or normal *)
  rand_amount : Q;    (* random.random() inside random.uniform *)
  draw_first : wallet_draw;
  draw_second : wallet_draw
}.

Section WithFloat.
Context `{PyFloat}.

Definition _generate_address (prefix : string) (r1 r2 : Q) : string :=
  let seed_data := prefix +:+ float_repr r1 +:+ float_repr r2 in
  "0x" +:+ substring 0 40 (SHA256.hexdigest seed_data).

(** [TransactionGenerator()]; the four draws make the two fixed
    addresses. *)
Definition init (r1 r2 r3 r4 : Q) : t :=
  mk [] ∅ (_generate_address "EXCHANGE" r1 r2)
     (_generate_address "TREASURY" r3 r4)
     0.45 0.35 0.20 1 10000 0.1.

Definition get_random_wallet (g : t) (exclude : option string)
    (d : wallet_draw) : string :=
  let candidates :=
    filter (fun w => Some w <> exclude) (wallets g) in
  match candidates with
  | [] => _generate_address "NEW" (fresh1 d) (fresh2 d)
  | w :: _ => nth (choice d mod length candidates) candidates w
  end.

(** The amount sampled by [generate_transaction], before and after the
    rounding. *)
Definition sample_amount (g : t) (d : draws) : Q :=
  if Qltb (rand_whale d) (whale_threshold g)
  then uniform (max_amount g * 0.5) (max_amount g) (rand_amount d)
  else uniform (min_amount g) (max_amount g * 0.1) (rand_amount d).

Definition generate_transaction (g : t) (d : draws) : GeneratedTransaction :=
  let ty :=
    if Qltb (rand_type d) (buy_probability g) then BUY
    else if Qltb (rand_type d) (buy_probability g + sell_probability g)
    then SELL
    else TRANSFER in
  let amount := py_round (sample_amount g d) 2 in
  match ty with
  | BUY =>
      mk_tx ty (exchange_address g) (get_random_wallet g None (draw_first d))
            amount
  | SELL =>
      mk_tx ty (get_random_wallet g None (draw_first d)) (exchange_address g)
            amount
  | TRANSFER =>
      let from_addr := get_random_wallet g None (draw_first d) in
      mk_tx ty from_addr (get_random_wallet g (Some from_addr) (draw_second d))
            amount
  end.

(** [generate_batch(count)]: one call of [generate_transaction] per
    element of [ds], the draws of the successive calls. *)
Definition generate_batch (g : t) (ds : list draws)
  : list GeneratedTransaction :=
  map (generate_transaction g) ds.

(** The two loops of [initialize_wallets].  [rnd k] is the outcome of the
    [k]-th call of [random.random()] made by [initialize_wallets]; each
    loop threads the number of the next call. *)
Definition whale_step (whale_share : Q) (rnd : nat -> Q)
    (acc : gmap string Q * Q * nat) (wallet : string)
  : gmap string Q * Q * nat :=
  let '(distribution, remaining, k) := acc in
  let amount := whale_share * (0.8 + rnd k * 0.4) in
  (<[wallet := amount]> distribution, remaining - amount, S k).

Definition regular_step (share : Q) (rnd : nat -> Q)
    (acc : gmap string Q * nat) (wallet : string) : gmap string Q * nat :=
  let '(distribution, k) := acc in
  let amount := share * (0.5 + rnd k) in
  (<[wallet := py_max 0 amount]> distribution, S k).

(** [initialize_wallets(count, initial_supply)] for a count that is not
    negative: the distribution returned and the new state. *)
Definition initialize_wallets (g : t) (count : nat) (initial_supply : Q)
    (rnd : nat -> Q) : gmap string Q * t :=
  let wallets :=
    map (fun i =>
           _generate_address ("W" +:+ str_of_Z (Z.of_nat i))
                             (rnd (2 * i)%nat) (rnd (2 * i + 1)%nat))
        (seq 0 count) in
  let whale_count := Nat.max 1 (count / 10) in
  let whale_share :=
    initial_supply * 0.6 / inject_Z (Z.of_nat whale_count) in
  let '(distribution, remaining, k) :=
    fold_left (whale_step whale_share rnd) (take whale_count wallets)
              (∅, initial_supply, (2 * count)%nat) in
  let regular_wallets := drop whale_count wallets in
  let distribution :=
    match regular_wallets with
    | [] => distribution
    | _ :: _ =>
        let share :=
          remaining / inject_Z (Z.of_nat (length regular_wallets)) in
        fst (fold_left (regular_step share rnd) regular_wallets
                       (distribution, k))
    end in
  let distribution :=
    <[exchange_address g := initial_supply * 0.1]> distribution in
  let distribution :=
    <[treasury_address g := initial_supply * 0.05]> distribution in
  (distribution,
   mk wallets distribution (exchange_address g) (treasury_address g)
      (buy_probability g) (sell_probability g) (transfer_probability g)
      (min_amount g) (max_amount g) (whale_threshold g)).

End WithFloat.

(** [update_balance(address, amount, is_add)] *)
Definition update_balance (g : t) (address : string) (amount : Q)
    (is_add : bool) : t :=
  let current := default 0 (wallet_balances g !! address) in
  let balance :=
    if is_add then current + amount else py_max 0 (current - amount) in
  mk (wallets g) (<[address := balance]> (wallet_balances g))
     (exchange_address g) (treasury_address g)
     (buy_probability g) (sell_probability g) (transfer_probability g)
     (min_amount g) (max_amount g) (whale_threshold g).

(** [get_holder_count]: the wallets with a positive balance, counted. *)
Definition get_holder_count (g : t) : nat :=
  length (List.filter (fun kv => Qltb 0 (snd kv))
                      (map_to_list (wallet_balances g))).

End TransactionGenerator.

(* ===================================================================== *)
(** ** models/simulation.py and routers/simulation.py *)
(* ===================================================================== *)

Module Simulation.
Local Open Scope Q_scope.

Inductive SimulationStatus := PENDING | RUNNING | PAUSED | COMPLETED | FAILED.

Record SimulationState := mk_state {
  status : SimulationStatus;
  duration_seconds : Z;
  elapsed_seconds : Q;
  transactions_generated : nat;
  blocks_created : nat;
  current_price : Q;
  price_history : list (Q * Q);
  holders_count : nat
}.

(** [SimulationState(crypto_id=.., duration_seconds=.., current_price=..)] *)
Definition new_state (duration : Z) (price : Q) : SimulationState :=
  mk_state PENDING duration 0 0 0 price [] 0.


(** [get_intensity_params]: transactions per second and volatility. *)
Definition intensity_table : list (string * (Z * Q)) :=
  [("low", (2%Z, 0.02)); ("medium", (5%Z, 0.05)); ("high", (10%Z, 0.10))].

Fixpoint dict_get {A} (table : list (string * A)) (key : string) (dflt : A)
  : A :=
  match table with
  | [] => dflt
  | (k, v) :: rest => if String.eqb k key then v else dict_get rest key dflt
  end.

Definition get_intensity_params (intensity : string) : Z * Q :=
  dict_get intensity_table intensity (5%Z, 0.05).

(** The four components [run_simulation] takes from [cryptos[crypto_id]],
    and the state of the run. *)
Record world := mk_world {
  blockchain : BlockchainSimulator.t;
  tokenomics : TokenomicsEngine.t;
  tx_generator : TransactionGenerator.t;
  price_sim : PriceSimulator.t;
  sim_state : SimulationState
}.

(** The clock readings of one iteration of the loop, in program order:
    the loop's own [current_time], the timestamp of the transaction, the
    reading of [should_create_block], the two of [create_block], and the
    timestamp of the reward transaction. *)
Record clocks := mk_clocks {
  current_time : Q;
  now_tx : Q;
  now_poll : Q;
  now_block : Q;
  now_last : Q;
  now_reward : Q
}.


Section WithFloat.
Context `{PyFloat}.

(** The block-creation branch of the loop body; [None] when
    [create_block] raises. *)
Definition seal_and_reward (bc : BlockchainSimulator.t)
    (tk : TokenomicsEngine.t) (st : SimulationState) (c : clocks)
  : option (BlockchainSimulator.t * TokenomicsEngine.t * SimulationState) :=
  if BlockchainSimulator.should_create_block bc (now_poll c) then
    match BlockchainSimulator.create_block bc (now_block c) (now_last c) with
    | None => None
    | Some (_, bc) =>
        let st :=
          mk_state (status st) (duration_seconds st) (elapsed_seconds st)
                   (transactions_generated st) (S (blocks_created st))
                   (current_price st) (price_history st) (holders_count st) in
        let '(reward, tk) := TokenomicsEngine.apply_block_reward tk "MINER" in
        let bc :=
          if Qltb 0 reward
          then snd (BlockchainSimulator.add_transaction
                      bc "SYSTEM" "MINER" reward (now_reward c))
          else bc in
        Some (bc, tk, st)
    end
  else Some (bc, tk, st).

(** One iteration of the loop of [run_simulation], from the reading of the
    clock to the update of the holder count.  [None] when the body raises
    (the run then ends as [FAILED]). *)
Definition tick (w : world) (start_time : Q) (c : clocks)
    (d : TransactionGenerator.draws) (gauss : Q) : option world :=
  let st := sim_state w in
  let st :=
    mk_state (status st) (duration_seconds st) (current_time c - start_time)
             (transactions_generated st) (blocks_created st)
             (current_price st) (price_history st) (holders_count st) in
  let gen_tx := TransactionGenerator.generate_transaction (tx_generator w) d in
  let '(tx, bc) :=
    BlockchainSimulator.add_transaction (blockchain w)
      (TransactionGenerator.from_address gen_tx)
      (TransactionGenerator.to_address gen_tx)
      (TransactionGenerator.amount gen_tx) (now_tx c) in
  let '(st, tk) :=
    match tx with
    | Some _ =>
        (mk_state (status st) (duration_seconds st) (elapsed_seconds st)
                  (S (transactions_generated st)) (blocks_created st)
                  (current_price st) (price_history st) (holders_count st),
         match TransactionGenerator.tx_type gen_tx with
         | TransactionGenerator.BUY =>
             TokenomicsEngine.add_buy_pressure
               (tokenomics w) (TransactionGenerator.amount gen_tx)
         | TransactionGenerator.SELL =>
             TokenomicsEngine.add_sell_pressure
               (tokenomics w) (TransactionGenerator.amount gen_tx)
         | TransactionGenerator.TRANSFER => tokenomics w
         end)
    | None => (st, tokenomics w)
    end in
  let tk := snd (TokenomicsEngine.calculate_price tk (current_time c)) in
  let ps :=
    snd (PriceSimulator.add_market_impact (price_sim w)
           (TokenomicsEngine.buy_pressure tk)
           (TokenomicsEngine.sell_pressure tk)
           (TokenomicsEngine.circulating_supply tk)) in
  let '(new_price, ps) :=
    PriceSimulator.update_price ps (Some (current_time c)) (current_time c)
                                gauss in
  let st :=
    mk_state (status st) (duration_seconds st) (elapsed_seconds st)
             (transactions_generated st) (blocks_created st) new_price
             (price_history st ++ [(current_time c, new_price)])
             (holders_count st) in
  match seal_and_reward bc tk st c with
  | None => None
  | Some (bc, tk, st) =>
      let st :=
        mk_state (status st) (duration_seconds st) (elapsed_seconds st)
                 (transactions_generated st) (blocks_created st)
                 (current_price st) (price_history st)
                 (TransactionGenerator.get_holder_count (tx_generator w)) in
      Some (mk_world bc tk (tx_generator w) ps st)
  end.

End WithFloat.

End Simulation.

(* ===================================================================== *)
(** ** States of the simulator, and direct writes to stored blocks *)
(* ===================================================================== *)

(** The states a [BlockchainSimulator] can be in: the constructor takes no
    argument and builds its own chain, so every state comes from [init]
    through the three mutating methods. *)
Inductive reachable `{PyFloat} : BlockchainSimulator.t -> Prop :=
| reach_init now_genesis now_last :
    reachable (BlockchainSimulator.init now_genesis now_last)
| reach_initialize s distribution :
    reachable s -> reachable (BlockchainSimulator.initialize s distribution)
| reach_add_transaction s from_addr to_addr amount now :
    reachable s ->
    reachable (snd (BlockchainSimulator.add_transaction
                      s from_addr to_addr amount now))
| reach_create_block s now_block now_last block s' :
    reachable s ->
    BlockchainSimulator.create_block s now_block now_last = Some (block, s') ->
    reachable s'.

(** [chain[i].hash = v] and [chain[i].previous_hash = v], written from
    outside the class. *)
Definition overwrite_hash (i : nat) (v : string) (bc : Blockchain.t)
  : Blockchain.t :=
  Blockchain.mk (alter (Block.set_hash v) i (Blockchain.chain bc))
                (Blockchain.pending_transactions bc).

Definition overwrite_previous_hash (i : nat) (v : string) (bc : Blockchain.t)
  : Blockchain.t :=
  Blockchain.mk (alter (Block.set_previous_hash v) i (Blockchain.chain bc))
                (Blockchain.pending_transactions bc).

(** The spec's scenario: balances [{A: 100}], a transfer of 30 from A to B,
    then a block; and, next to it, a block sealed on an empty queue. *)
Module Scenario.
Import BlockchainSimulator.

Definition s0 : t := initialize (init 1700000000 1700000000) {[ "A" := 100%Q ]}.
Definition s1 : t := snd (add_transaction s0 "A" "B" 30 1700000001).
Definition s2 : option (Block.t * t) := create_block s1 1700000002 1700000002.

Definition empty_block : option (Block.t * t) :=
  create_block s0 1700000002 1700000002.

(** The chain of [empty_block]: genesis and one block without
    transactions. *)
Definition two_blocks : Blockchain.t :=
  match empty_block with
  | Some (_, s) => blockchain s
  | None => blockchain s0
  end.

End Scenario.

(* ===================================================================== *)
(** ** Statements and states used by the theorems *)
(* ===================================================================== *)

Section LedgerStatements.
Context `{PyFloat}.
Import BlockchainSimulator.
Local Open Scope Q_scope.


End LedgerStatements.

Section ChainStatements.
Context `{PyFloat}.

(** The invariant of the states of the simulator, in three parts: the
    block at position [i] has index [i], every pending reference points
    into the object store, and the chain is not empty. *)
Definition chain_indexed (s : BlockchainSimulator.t) : Prop :=
  forall i b, BlockchainSimulator.get_chain s !! i = Some b -> Block.index b = i.

Definition pending_allocated (s : BlockchainSimulator.t) : Prop :=
  forall r, r ∈ BlockchainSimulator.get_pending_transactions s ->
            r < length (BlockchainSimulator.objects s).

Definition well_formed (s : BlockchainSimulator.t) : Prop :=
  BlockchainSimulator.get_chain s <> []
  /\ chain_indexed s /\ pending_allocated s.

(** What claim C4 states, for the block at position [i]. *)
Definition hash_write_detected (h : heap) (bc : Blockchain.t) (i : nat)
    (v : string) : Prop :=
  forall b, Blockchain.is_valid h bc = true ->
            Blockchain.chain bc !! i = Some b ->
            v <> Block.hash b ->
            Blockchain.is_valid h (overwrite_hash i v bc) = false.

Definition previous_hash_write_detected (h : heap) (bc : Blockchain.t)
    (i : nat) (v : string) : Prop :=
  forall b, Blockchain.is_valid h bc = true ->
            Blockchain.chain bc !! i = Some b ->
            v <> Block.previous_hash b ->
            Blockchain.is_valid h (overwrite_previous_hash i v bc) = false.

End ChainStatements.

Section PriceStatements.
Import PriceSimulator.
Local Open Scope Q_scope.


Definition count_near (near : Q -> Q -> bool) (price : Q) (levels : list Q)
  : Q :=
  inject_Z (Z.of_nat (length (List.filter (near price) levels))).

(** What claim C9 states: the effect computed by the code is the one the
    specification words. *)
Definition effect_as_specified (p : t) : Prop :=
  _support_resistance_effect p == spec_support_resistance p.

End PriceStatements.

Section TokenomicsStatements.
Import TokenomicsEngine.
Local Open Scope Q_scope.

(** What claim C6 states about one call. *)
Definition price_within_bounds_and_decay (e : t) (timestamp : Q) : Prop :=
  let res := calculate_price e timestamp in
  TokenomicsConfig.min_price (config e) <= fst res
    <= TokenomicsConfig.max_price (config e)
  /\ buy_pressure (snd res) == 0.9 * buy_pressure e
  /\ sell_pressure (snd res) == 0.9 * sell_pressure e.

(** An engine whose configuration has its price bounds the wrong way
    round: [min_price = 10], [max_price = 1]. *)
Definition crossed_bounds : t :=
  init (Some (TokenomicsConfig.mk 1000000 0.01 0.02 50 ∅ 0.1 10 1)).



(** The spec's scenario: total supply 1000, 990 in circulation, block
    reward 50. *)
Definition near_cap : t :=
  initialize
    (init (Some (TokenomicsConfig.mk 1000 0.01 0.02 50 ∅ 0.1 0.0001 1000)))
    1000 0.01 990.

End TokenomicsStatements.

(* ===================================================================== *)
(** ** Predicates on states used by the further properties *)
(* ===================================================================== *)

(** No balance of the ledger is negative. *)
Definition balances_nonneg (l : gmap string Q) : Prop :=
  map_Forall (fun _ v => (0 <= v)%Q) l.

(** The references held by the simulator, in the order of the chain and
    then of the pending queue. *)
Definition all_refs (s : BlockchainSimulator.t) : list tx_ref :=
  concat (map Block.transactions (BlockchainSimulator.get_chain s))
  ++ BlockchainSimulator.get_pending_transactions s.

(** The transaction behind reference [r] exists and carries [o] as its
    [block_index]. *)
Definition stamped_as (s : BlockchainSimulator.t) (r : tx_ref)
    (o : option nat) : Prop :=
  exists tx, BlockchainSimulator.objects s !! r = Some tx
             /\ Transaction.block_index tx = o.

(** The states a [PriceSimulator] can be in: built by the constructor and
    changed by its methods and by the write of [volatility]. *)
Inductive price_reachable : PriceSimulator.t -> Prop :=
| price_init initial volatility_cap now :
    price_reachable (PriceSimulator.init initial volatility_cap now)
| price_set_initial p price now :
    price_reachable p ->
    price_reachable (PriceSimulator.set_initial_price p price now)
| price_volatility p v :
    price_reachable p -> price_reachable (PriceSimulator.with_volatility p v)
| price_impact p buy_volume sell_volume total_supply :
    price_reachable p ->
    price_reachable
      (snd (PriceSimulator.add_market_impact p buy_volume sell_volume
              total_supply))
| price_support p level :
    price_reachable p ->
    price_reachable (PriceSimulator.add_support_level p level)
| price_resistance p level :
    price_reachable p ->
    price_reachable (PriceSimulator.add_resistance_level p level)
| price_update p timestamp now gauss :
    price_reachable p ->
    price_reachable (snd (PriceSimulator.update_price p timestamp now gauss)).


(** Successive calls of [calculate_price], one per timestamp, with no
    pressure added in between. *)
Definition recalculate (e : TokenomicsEngine.t) (timestamps : list Q)
  : TokenomicsEngine.t :=
  fold_left (fun e ts => snd (TokenomicsEngine.calculate_price e ts))
            timestamps e.


(** The shape of the addresses [_generate_address] makes: ["0x"] and 40
    more characters. *)
Definition is_generated (a : string) : Prop :=
  (exists rest, a = "0x" +:+ rest) /\ String.length a = 42%nat.

(** The states a [TransactionGenerator] can be in. *)
Inductive generator_reachable `{PyFloat} : TransactionGenerator.t -> Prop :=
| generator_init r1 r2 r3 r4 :
    generator_reachable (TransactionGenerator.init r1 r2 r3 r4)
| generator_wallets g count initial_supply rnd :
    generator_reachable g ->
    generator_reachable
      (snd (TransactionGenerator.initialize_wallets g count initial_supply rnd))
| generator_balance g address amount is_add :
    generator_reachable g ->
    generator_reachable
      (TransactionGenerator.update_balance g address amount is_add).

(** A small world for the loop: three wallets sharing a supply of 100000,
    the simulator initialised with their distribution, the engine of the
    reward scenario, and a price process at 0.01. *)
Module Demo.

Definition generator : TransactionGenerator.t :=
  snd (TransactionGenerator.initialize_wallets
         (TransactionGenerator.init 0.25 0.5 0.75 0.125) 3 100000
         (fun _ => 0.5%Q)).

Definition simulator : BlockchainSimulator.t :=
  BlockchainSimulator.initialize
    (BlockchainSimulator.init 1700000000 1700000000)
    (TransactionGenerator.wallet_balances generator).

Definition price : PriceSimulator.t :=
  PriceSimulator.init 0.01 0.05 1700000000.

Definition world0 : Simulation.world :=
  Simulation.mk_world simulator near_cap generator price
                      (Simulation.new_state 60 0.01).

Definition clocks0 : Simulation.clocks :=
  Simulation.mk_clocks 1700000003 1700000003 1700000003 1700000003
                       1700000003 1700000003.

Definition draws0 : TransactionGenerator.draws :=
  TransactionGenerator.mk_draws 0.3 0.5 0.25
    (TransactionGenerator.mk_wallet_draw 0 0.5 0.25)
    (TransactionGenerator.mk_wallet_draw 1 0.75 0.125).

(** The simulator of the spec's scenario after its block was sealed. *)
Definition sealed : BlockchainSimulator.t :=
  match Scenario.s2 with
  | Some (_, s) => s
  | None => Scenario.s1
  end.

(** The simulator of the scenario after a block was sealed on an empty
    queue. *)
Definition empty_sealed : BlockchainSimulator.t :=
  match Scenario.empty_block with
  | Some (_, s) => s
  | None => Scenario.s0
  end.

End Demo.
Example sha256_empty :
  SHA256.hexdigest "" =
  "e3b0c44298fc1c149afbf4c8996fb92427ae41e4649b934ca495991b7852b855"%string.
Proof. vm_compute. reflexivity. Qed.

Example sha256_abc :
  SHA256.hexdigest "abc" =
  "ba7816bf8f01cfea414140de5dae2223b00361a396177a9cb410ff61f20015ad"%string.
Proof. vm_compute. reflexivity. Qed.

Example sha256_two_blocks :
  SHA256.hexdigest "abcdbcdecdefdefgefghfghighijhijkijkljklmklmnlmnomnopnopq" =
  "248d6a61d20638b8e5c026930c3e6039a33ce45964ff2167f6ecedd419db06c1"%string.
Proof. vm_compute. reflexivity. Qed.

Lemma Qltb_lt a b : Qltb a b = true <-> (a < b)%Q.
Proof.
  unfold Qltb. rewrite negb_true_iff.
  destruct (Qle_bool b a) eqn:E.
  - apply Qle_bool_iff in E. split; [discriminate | intros; lra].
  - split; [intros _ | reflexivity].
    destruct (Qlt_le_dec a b) as [Hlt | Hle]; [exact Hlt |].
    apply Qle_bool_iff in Hle. congruence.
Qed.

Lemma Qltb_ge a b : Qltb a b = false <-> (b <= a)%Q.
Proof.
  destruct (Qltb a b) eqn:E.
  - apply Qltb_lt in E. split; [discriminate | intros; lra].
  - split; [intros _ | reflexivity].
    destruct (Qlt_le_dec a b) as [Hlt | Hle]; [| exact Hle].
    apply Qltb_lt in Hlt. congruence.
Qed.

(** Case analysis on a comparison of the code, with the outcome as an
    inequality. *)
Ltac case_Qltb a b E :=
  destruct (Qltb a b) eqn:E; [apply Qltb_lt in E | apply Qltb_ge in E].

Lemma Qleb_le a b : Qleb a b = true <-> (a <= b)%Q.
Proof. apply Qle_bool_iff. Qed.

Lemma Qleb_gt a b : Qleb a b = false <-> (b < a)%Q.
Proof.
  unfold Qleb. destruct (Qle_bool a b) eqn:E.
  - apply Qle_bool_iff in E. split; [discriminate | intros; lra].
  - split; [intros _ | reflexivity].
    destruct (Qlt_le_dec b a) as [Hlt | Hle]; [exact Hlt |].
    apply Qle_bool_iff in Hle. congruence.
Qed.

Lemma py_max_spec a b :
  (a <= py_max a b /\ b <= py_max a b /\ (py_max a b == a \/ py_max a b == b))%Q.
Proof.
  unfold py_max. case_Qltb a b E; repeat split; lra.
Qed.

Lemma py_min_spec a b :
  (py_min a b <= a /\ py_min a b <= b /\ (py_min a b == a \/ py_min a b == b))%Q.
Proof.
  unfold py_min. case_Qltb b a E; repeat split; lra.
Qed.

Example dumps_sorted :
  Json.dumps (Json.Dict [("b", Json.Float 30); ("a", Json.Arr [Json.Null; Json.Int 1])])
  = Json.char 123 +:+ Json.quote "a" +:+ ": [null, 1], " +:+ Json.quote "b"
    +:+ ": 30.0}".
Proof. vm_compute. reflexivity. Qed.

Example decimal_repr_examples :
  decimal_repr 30 = "30.0" /\ decimal_repr (1 # 2) = "0.5"
  /\ decimal_repr (170000000025 # 100) = "1700000000.25"
  /\ decimal_repr (-(5 # 4)) = "-1.25".
Proof. vm_compute. repeat split. Qed.

Example scenario_balances :
  BlockchainSimulator.ledger Scenario.s1 !! "A" = Some 70%Q /\
  BlockchainSimulator.ledger Scenario.s1 !! "B" = Some 30%Q /\
  length (BlockchainSimulator.get_pending_transactions Scenario.s1) = 1%nat.
Proof. vm_compute. repeat split. Qed.

(* ===================================================================== *)
(** ** The ledger: add_transaction *)
(* ===================================================================== *)

Section Ledger.
Context `{PyFloat}.
Import BlockchainSimulator.
Local Open Scope Q_scope.




Lemma eqb_SYSTEM (a : string) :
  negb (String.eqb a "SYSTEM") = true <-> a <> "SYSTEM"%string.
Proof.
  rewrite negb_true_iff. destruct (String.eqb_spec a "SYSTEM"); split;
    congruence.
Qed.

(** The three ways [add_transaction] can go. *)
Lemma add_transaction_cases (s : t) from_addr to_addr amount now :
  let res := add_transaction s from_addr to_addr amount now in
  (from_addr <> "SYSTEM"%string /\ get_balance s from_addr < amount
   /\ res = (None, s))
  \/ (amount <= 0 /\ res = (None, s))
  \/ (0 < amount
      /\ (from_addr <> "SYSTEM"%string -> amount <= get_balance s from_addr)
      /\ fst res = Some (length (objects s))).
Proof.
  unfold add_transaction.
  destruct (negb (String.eqb from_addr "SYSTEM")) eqn:Esys;
    destruct (Qltb (get_balance s from_addr) amount) eqn:Ebal;
    destruct (Qleb amount 0) eqn:Eamt; simpl;
    try apply Qltb_lt in Ebal; try apply Qltb_ge in Ebal;
    try apply Qleb_le in Eamt; try apply Qleb_gt in Eamt;
    try (apply eqb_SYSTEM in Esys).
  all: try (left; repeat split; assumption).
  all: try (right; left; repeat split; assumption).
  all: right; right; repeat split; try assumption; intros Hne.
  - exact Ebal.
  - apply eqb_SYSTEM in Hne. congruence.
  - apply eqb_SYSTEM in Hne. congruence.
Qed.

(** The ledger after an accepted call. *)
Lemma add_transaction_ledger (s : t) from_addr to_addr amount now :
  fst (add_transaction s from_addr to_addr amount now) <> None ->
  ledger (snd (add_transaction s from_addr to_addr amount now)) =
    let ledger1 :=
      if negb (String.eqb from_addr "SYSTEM")
      then <[from_addr := get_balance s from_addr - amount]> (ledger s)
      else ledger s in
    <[to_addr := default 0 (ledger1 !! to_addr) + amount]> ledger1.
Proof.
  unfold add_transaction.
  destruct (negb (String.eqb from_addr "SYSTEM")
            && Qltb (get_balance s from_addr) amount); [simpl; congruence |].
  destruct (Qleb amount 0); [simpl; congruence |].
  reflexivity.
Qed.

(** C2. [add_transaction] returns the rejection [None] exactly when
    [amount <= 0], or the sender is not ["SYSTEM"] and its balance is below
    [amount]; the function is total (no call raises), and a rejected call
    returns the state it was given: ledger, pending queue and everything
    else are unchanged. *)
Theorem add_transaction_rejects_iff (s : t) (from_addr to_addr : string)
    (amount now : Q) :
  let res := add_transaction s from_addr to_addr amount now in
  (fst res = None <->
     amount <= 0
     \/ (from_addr <> "SYSTEM"%string /\ get_balance s from_addr < amount))
  /\ (fst res = None ->
        snd res = s
        /\ ledger (snd res) = ledger s
        /\ get_pending_transactions (snd res) = get_pending_transactions s).
Proof.
  intros res.
  destruct (add_transaction_cases s from_addr to_addr amount now)
    as [(Hne & Hlt & Hres) | [(Hle & Hres) | (Hpos & Hbal & Hres)]];
    fold res in Hres.
  - rewrite Hres; simpl. split; [| auto]. split; auto.
  - rewrite Hres; simpl. split; [| auto]. split; auto.
  - split.
    + split.
      * rewrite Hres. discriminate.
      * intros [Hle | [Hne Hlt]]; [lra | specialize (Hbal Hne); lra].
    + rewrite Hres. discriminate.
Qed.


End Ledger.

(* ===================================================================== *)
(** ** The chain: create_block and is_valid *)
(* ===================================================================== *)

Section Chain.
Context `{PyFloat}.
Local Open Scope nat_scope.

Lemma block_new_fields (h : heap) idx prev txs now :
  Block.index (Block.new h idx prev txs now) = idx
  /\ Block.transactions (Block.new h idx prev txs now) = txs
  /\ Block.previous_hash (Block.new h idx prev txs now) = prev
  /\ Block.hash (Block.new h idx prev txs now)
     = Block._generate_hash h (Block.new h idx prev txs now).
Proof. unfold Block.new, Block.model_post_init. simpl. auto. Qed.

(** ** Stamping *)

Lemma set_block_index_idem i tx :
  Transaction.set_block_index i (Transaction.set_block_index i tx)
  = Transaction.set_block_index i tx.
Proof. reflexivity. Qed.

Lemma stamp_length i refs (h : heap) :
  length (BlockchainSimulator.stamp i refs h) = length h.
Proof.
  unfold BlockchainSimulator.stamp. revert h.
  induction refs as [| r refs IH]; intros h; simpl; [reflexivity |].
  rewrite IH. apply length_alter.
Qed.

Lemma stamp_lookup i refs (h : heap) (r : tx_ref) :
  BlockchainSimulator.stamp i refs h !! r
  = if decide (r ∈ refs) then Transaction.set_block_index i <$> h !! r
    else h !! r.
Proof.
  unfold BlockchainSimulator.stamp. revert h.
  induction refs as [| a refs IH]; intros h; simpl.
  - destruct (decide (r ∈ [])) as [Hin | _]; [| reflexivity].
    inversion Hin.
  - rewrite IH. clear IH.
    destruct (decide (r = a)) as [-> | Hne].
    + rewrite list_lookup_alter_eq.
      destruct (decide (a ∈ a :: refs)) as [_ | Hn];
        [| exfalso; apply Hn; left].
      destruct (decide (a ∈ refs)); [| reflexivity].
      rewrite <- option_fmap_compose. apply option_fmap_ext.
      intros tx. reflexivity.
    + rewrite list_lookup_alter_ne by congruence.
      destruct (decide (r ∈ refs)) as [Hin | Hnin];
        destruct (decide (r ∈ a :: refs)) as [Hin' | Hnin'];
        try reflexivity.
      * exfalso. apply Hnin'. right. exact Hin.
      * exfalso. apply list_elem_of_In in Hin'. destruct Hin' as [-> | Hin'];
          [congruence |]. apply Hnin. apply list_elem_of_In. exact Hin'.
Qed.

(** ** The invariant of reachable states *)

Lemma add_transaction_shape (s : BlockchainSimulator.t) from_addr to_addr
    amount now :
  let s' := snd (BlockchainSimulator.add_transaction
                   s from_addr to_addr amount now) in
  s' = s
  \/ (BlockchainSimulator.get_chain s' = BlockchainSimulator.get_chain s
      /\ BlockchainSimulator.get_pending_transactions s'
         = BlockchainSimulator.get_pending_transactions s
             ++ [length (BlockchainSimulator.objects s)]
      /\ length (BlockchainSimulator.objects s')
         = S (length (BlockchainSimulator.objects s))).
Proof.
  unfold BlockchainSimulator.add_transaction.
  destruct (_ && _); [left; reflexivity |].
  destruct (Qleb amount 0); [left; reflexivity |].
  right. simpl. repeat split.
  rewrite length_app. simpl. lia.
Qed.

Lemma create_block_shape (s : BlockchainSimulator.t) now_block now_last
    block s' :
  BlockchainSimulator.create_block s now_block now_last = Some (block, s') ->
  exists latest,
    last (BlockchainSimulator.get_chain s) = Some latest
    /\ block = Block.new (BlockchainSimulator.objects s)
                 (length (BlockchainSimulator.get_chain s))
                 (Block.hash latest)
                 (BlockchainSimulator.get_pending_transactions s) now_block
    /\ BlockchainSimulator.get_chain s'
       = BlockchainSimulator.get_chain s ++ [block]
    /\ BlockchainSimulator.get_pending_transactions s' = []
    /\ BlockchainSimulator.objects s'
       = BlockchainSimulator.stamp (Block.index block)
           (Block.transactions block) (BlockchainSimulator.objects s).
Proof.
  unfold BlockchainSimulator.create_block, Blockchain.create_block,
    Blockchain.get_latest_block, BlockchainSimulator.get_chain,
    BlockchainSimulator.get_pending_transactions.
  destruct (last (Blockchain.chain (BlockchainSimulator.blockchain s)))
    as [latest |] eqn:Hlast; [| discriminate].
  intros Heq. injection Heq as <- <-. exists latest. simpl. auto.
Qed.

Lemma reachable_well_formed (s : BlockchainSimulator.t) :
  reachable s -> well_formed s.
Proof.
  induction 1 as [t0 t1 | s d _ IH | s fa ta amt now _ IH
                  | s t0 t1 block s' _ IH Hcb].
  - repeat split.
    + discriminate.
    + intros [| i] b Hb; simpl in Hb; [| discriminate].
      injection Hb as <-. reflexivity.
    + intros r Hr. inversion Hr.
  - exact IH.
  - destruct IH as (Hne & Hidx & Hpend).
    destruct (add_transaction_shape s fa ta amt now) as [-> | (Hc & Hp & Hl)];
      [repeat split; assumption |].
    repeat split.
    + rewrite Hc. exact Hne.
    + unfold chain_indexed. rewrite Hc. exact Hidx.
    + unfold pending_allocated. rewrite Hp, Hl. intros r Hr.
      apply elem_of_app in Hr. destruct Hr as [Hr | Hr].
      * specialize (Hpend r Hr). lia.
      * apply list_elem_of_singleton in Hr. lia.
  - destruct IH as (Hne & Hidx & Hpend).
    destruct (create_block_shape s t0 t1 block s' Hcb)
      as (latest & Hlast & Hblock & Hc & Hp & Ho).
    repeat split.
    + rewrite Hc. intros Hnil. apply app_eq_nil in Hnil. destruct Hnil.
      discriminate.
    + unfold chain_indexed. rewrite Hc. intros i b Hb.
      apply lookup_app_Some in Hb. destruct Hb as [Hb | [Hge Hb]].
      * apply Hidx. exact Hb.
      * apply list_lookup_singleton_Some in Hb. destruct Hb as [Hi <-].
        rewrite Hblock.
        destruct (block_new_fields (BlockchainSimulator.objects s)
                    (length (BlockchainSimulator.get_chain s))
                    (Block.hash latest)
                    (BlockchainSimulator.get_pending_transactions s) t0)
          as (-> & _).
        lia.
    + unfold pending_allocated. rewrite Hp. intros r Hr. inversion Hr.
Qed.

(** C8. In every state of the simulator, [create_block] returns a block
    that holds the whole pending queue (so as many transactions as the
    queue had), whose [previous_hash] is the hash of the chain's last block
    and whose index is one more than that block's index; the block is
    appended to the chain, each of its transactions has its [block_index]
    set to the block's index, and the pending queue is empty afterwards. *)
Theorem create_block_seals_pending (s : BlockchainSimulator.t)
    (now_block now_last : Q) :
  reachable s ->
  exists latest block s',
    last (BlockchainSimulator.get_chain s) = Some latest
    /\ BlockchainSimulator.create_block s now_block now_last
       = Some (block, s')
    /\ Block.transactions block
       = BlockchainSimulator.get_pending_transactions s
    /\ length (Block.transactions block)
       = length (BlockchainSimulator.get_pending_transactions s)
    /\ Block.previous_hash block = Block.hash latest
    /\ Block.index block = S (Block.index latest)
    /\ BlockchainSimulator.get_chain s'
       = BlockchainSimulator.get_chain s ++ [block]
    /\ (forall r, r ∈ Block.transactions block ->
          exists tx, BlockchainSimulator.objects s' !! r = Some tx
                     /\ Transaction.block_index tx = Some (Block.index block))
    /\ BlockchainSimulator.get_pending_transactions s' = [].
Proof.
  intros Hreach.
  destruct (reachable_well_formed s Hreach) as (Hne & Hidx & Hpend).
  destruct (BlockchainSimulator.create_block s now_block now_last)
    as [[block s'] |] eqn:Hcb.
  2:{ exfalso. revert Hcb.
      unfold BlockchainSimulator.create_block, Blockchain.create_block,
        Blockchain.get_latest_block.
      fold (BlockchainSimulator.get_chain s).
      destruct (last (BlockchainSimulator.get_chain s)) eqn:Hlast;
        [discriminate |].
      apply last_None in Hlast. congruence. }
  destruct (create_block_shape s now_block now_last block s' Hcb)
    as (latest & Hlast & Hblock & Hc & Hp & Ho).
  destruct (block_new_fields (BlockchainSimulator.objects s)
              (length (BlockchainSimulator.get_chain s))
              (Block.hash latest)
              (BlockchainSimulator.get_pending_transactions s) now_block)
    as (Hi & Ht & Hph & _).
  rewrite <- Hblock in Hi, Ht, Hph.
  exists latest, block, s'.
  repeat split; try assumption.
  - rewrite Ht. reflexivity.
  - rewrite Hi. rewrite last_lookup in Hlast.
    specialize (Hidx _ _ Hlast). rewrite Hidx.
    destruct (BlockchainSimulator.get_chain s); [congruence | simpl; lia].
  - intros r Hr. rewrite Ho, stamp_lookup.
    destruct (decide (r ∈ Block.transactions block)) as [_ | Hn];
      [| contradiction].
    rewrite Ht in Hr. specialize (Hpend r Hr).
    destruct (lookup_lt_is_Some_2 _ _ Hpend) as [tx Htx].
    rewrite Htx. simpl. eexists. split; reflexivity.
Qed.

End Chain.

(* ===================================================================== *)
(** ** is_valid *)
(* ===================================================================== *)

Section Validity.
Context `{PyFloat}.
Local Open Scope nat_scope.

Lemma check_block_true (h : heap) (previous current : Block.t) :
  Blockchain.check_block h previous current = true
  <-> Block.previous_hash current = Block.hash previous
      /\ Block.hash current = Block._generate_hash h current.
Proof.
  unfold Blockchain.check_block.
  destruct (String.eqb_spec (Block.previous_hash current) (Block.hash previous));
    destruct (String.eqb_spec (Block.hash current)
                (Block._generate_hash h current)); simpl;
    intuition congruence.
Qed.

(** The loop of [is_valid] accepts a chain exactly when every pair of
    neighbours passes both checks. *)
Lemma is_valid_from_true (h : heap) (previous : Block.t) (rest : list Block.t) :
  Blockchain.is_valid_from h previous rest = true
  <-> forall i p c, (previous :: rest) !! i = Some p ->
                    (previous :: rest) !! S i = Some c ->
                    Blockchain.check_block h p c = true.
Proof.
  revert previous. induction rest as [| current rest IH]; intros previous.
  - simpl. split; [| reflexivity]. intros _ [| i] p c _ Hc; discriminate.
  - simpl. destruct (Blockchain.check_block h previous current) eqn:Hcheck.
    + rewrite IH. split.
      * intros Hall [| i] p c Hp Hc.
        -- simpl in Hp, Hc. congruence.
        -- apply (Hall i); assumption.
      * intros Hall i p c Hp Hc. apply (Hall (S i)); assumption.
    + split; [discriminate |]. intros Hall.
      rewrite <- Hcheck. apply (Hall 0); reflexivity.
Qed.

Lemma is_valid_true (h : heap) (bc : Blockchain.t) :
  Blockchain.is_valid h bc = true
  <-> forall i p c, Blockchain.chain bc !! i = Some p ->
                    Blockchain.chain bc !! S i = Some c ->
                    Blockchain.check_block h p c = true.
Proof.
  unfold Blockchain.is_valid. destruct (Blockchain.chain bc) as [| g rest].
  - split; [| reflexivity]. intros _ i p c Hp; discriminate.
  - apply is_valid_from_true.
Qed.

Lemma is_valid_false_at (h : heap) (bc : Blockchain.t) i p c :
  Blockchain.chain bc !! i = Some p ->
  Blockchain.chain bc !! S i = Some c ->
  Blockchain.check_block h p c = false ->
  Blockchain.is_valid h bc = false.
Proof.
  intros Hp Hc Hcheck.
  destruct (Blockchain.is_valid h bc) eqn:Hv; [| reflexivity].
  rewrite is_valid_true in Hv. rewrite (Hv i p c Hp Hc) in Hcheck.
  discriminate.
Qed.

Lemma check_block_false (h : heap) (previous current : Block.t) :
  Block.previous_hash current <> Block.hash previous
  \/ Block.hash current <> Block._generate_hash h current ->
  Blockchain.check_block h previous current = false.
Proof.
  intros Hor.
  destruct (Blockchain.check_block h previous current) eqn:Hc; [| reflexivity].
  apply check_block_true in Hc. destruct Hc, Hor; congruence.
Qed.

(** The fresh simulator holds the genesis block only and is valid. *)
Lemma fresh_is_valid now_genesis now_last :
  BlockchainSimulator.is_valid (BlockchainSimulator.init now_genesis now_last)
  = true.
Proof. reflexivity. Qed.

(** After a block is sealed, validity of the chain comes down to the new
    block: its stored hash was computed before its transactions were
    stamped, and [is_valid] recomputes it after. *)
Lemma is_valid_after_create_block (s : BlockchainSimulator.t) now_block
    now_last block s' :
  BlockchainSimulator.create_block s now_block now_last = Some (block, s') ->
  BlockchainSimulator.is_valid s' = true ->
  Block._generate_hash (BlockchainSimulator.objects s) block
  = Block._generate_hash
      (BlockchainSimulator.stamp (Block.index block)
         (Block.transactions block) (BlockchainSimulator.objects s))
      block.
Proof.
  intros Hcb Hv.
  destruct (create_block_shape s now_block now_last block s' Hcb)
    as (latest & Hlast & Hblock & Hc & Hp & Ho).
  unfold BlockchainSimulator.is_valid in Hv. rewrite is_valid_true in Hv.
  fold (BlockchainSimulator.get_chain s') in Hv. rewrite Hc in Hv.
  rewrite last_lookup in Hlast.
  pose proof (lookup_lt_Some _ _ _ Hlast) as Hlt.
  specialize (Hv (pred (length (BlockchainSimulator.get_chain s)))
                latest block).
  rewrite <- Ho.
  assert (Hcheck : Blockchain.check_block (BlockchainSimulator.objects s')
                     latest block = true).
  { apply Hv.
    - apply lookup_app_l_Some. exact Hlast.
    - apply list_lookup_middle. lia. }
  apply check_block_true in Hcheck. destruct Hcheck as [_ <-].
  rewrite Hblock.
  symmetry.
  apply (block_new_fields (BlockchainSimulator.objects s)).
Qed.

(** ** Direct writes to a stored block *)

Lemma generate_hash_set_hash (h : heap) v b :
  Block._generate_hash h (Block.set_hash v b) = Block._generate_hash h b.
Proof. reflexivity. Qed.

(** C4 (amended). On a chain that [is_valid] accepts: overwriting the
    stored hash of a block with a different value is detected when the
    block is not the genesis block or the chain has at least two blocks;
    overwriting the stored [previous_hash] of a block with a different
    value is detected when the block is not the genesis block.  The loop
    starts at index 1, so the [previous_hash] of the genesis block, and its
    hash while it is the only block, are never read: [is_valid] still
    returns true after such a write. *)
Theorem is_valid_detects_overwrite (h : heap) (bc : Blockchain.t) (i : nat)
    (b : Block.t) (v : string) :
  Blockchain.is_valid h bc = true ->
  Blockchain.chain bc !! i = Some b ->
  (v <> Block.hash b -> 1 <= i \/ 2 <= length (Blockchain.chain bc) ->
     Blockchain.is_valid h (overwrite_hash i v bc) = false)
  /\ (v <> Block.previous_hash b -> 1 <= i ->
        Blockchain.is_valid h (overwrite_previous_hash i v bc) = false)
  /\ (i = 0 ->
        Blockchain.is_valid h (overwrite_previous_hash i v bc) = true)
  /\ (length (Blockchain.chain bc) = 1 ->
        Blockchain.is_valid h (overwrite_hash i v bc) = true).
Proof.
  intros Hv Hb. pose proof Hv as Hall. rewrite is_valid_true in Hall.
  split; [| split; [| split]].
  - intros Hne Hor. destruct i as [| j].
    + (* the genesis block: block 1 no longer links to it *)
      destruct (lookup_lt_is_Some_2 (Blockchain.chain bc) 1) as [c Hc];
        [lia |].
      specialize (Hall 0 b c Hb Hc). apply check_block_true in Hall.
      destruct Hall as [Hlink Hhash].
      apply (is_valid_false_at h _ 0 (Block.set_hash v b) c).
      * simpl. rewrite list_lookup_alter_eq, Hb. reflexivity.
      * simpl. rewrite list_lookup_alter_ne by lia. exact Hc.
      * apply check_block_false. left. simpl. congruence.
    + (* a later block: its own hash no longer matches the recomputation *)
      destruct (lookup_lt_is_Some_2 (Blockchain.chain bc) j) as [p Hp].
      { apply lookup_lt_Some in Hb. lia. }
      specialize (Hall j p b Hp Hb). apply check_block_true in Hall.
      destruct Hall as [Hlink Hhash].
      apply (is_valid_false_at h _ j p (Block.set_hash v b)).
      * simpl. rewrite list_lookup_alter_ne by lia. exact Hp.
      * simpl. rewrite list_lookup_alter_eq, Hb. reflexivity.
      * apply check_block_false. right. simpl.
        rewrite generate_hash_set_hash. congruence.
  - intros Hne Hi. destruct i as [| j]; [lia |].
    destruct (lookup_lt_is_Some_2 (Blockchain.chain bc) j) as [p Hp].
    { apply lookup_lt_Some in Hb. lia. }
    specialize (Hall j p b Hp Hb). apply check_block_true in Hall.
    destruct Hall as [Hlink Hhash].
    apply (is_valid_false_at h _ j p (Block.set_previous_hash v b)).
    + simpl. rewrite list_lookup_alter_ne by lia. exact Hp.
    + simpl. rewrite list_lookup_alter_eq, Hb. reflexivity.
    + apply check_block_false. left. simpl. congruence.
  - intros ->. rewrite <- Hv.
    unfold Blockchain.is_valid, overwrite_previous_hash. simpl.
    destruct (Blockchain.chain bc) as [| g rest]; [reflexivity |].
    simpl. destruct rest as [| c rest]; reflexivity.
  - intros Hlen. unfold Blockchain.is_valid, overwrite_hash. simpl.
    destruct (Blockchain.chain bc) as [| g [| c rest]]; try discriminate.
    destruct i; reflexivity.
Qed.

End Validity.

(** C3, on the code. A fresh ledger is valid, but the spec's own scenario
    (balances [{A: 100}], [add_transaction("A", "B", 30)], [create_block()])
    ends in a chain that [is_valid] rejects: the hash stored in block 1 was
    computed while the transaction's [block_index] was [None], and the
    recomputation reads it as [1]. *)
Theorem is_valid_rejects_sealed_transactions :
  BlockchainSimulator.is_valid Scenario.s0 = true
  /\ fst (BlockchainSimulator.add_transaction
            Scenario.s0 "A" "B" 30 1700000001) = Some 0%nat
  /\ exists block s',
       Scenario.s2 = Some (block, s')
       /\ Block.hash block
          = "6237ac05a164cd1ef1a8791793243b6d18d802ab588c21fc26ddd61eedc702e5"
       /\ Block._generate_hash (BlockchainSimulator.objects s') block
          = "fad4fcc6f46a57ef2031fbfa7dd62e30ee26fe8646f7d80f9b00c8b6e6e574a7"
       /\ BlockchainSimulator.is_valid s' = false.
Proof.
  split; [reflexivity |]. split; [vm_compute; reflexivity |].
  destruct Scenario.s2 as [[block s'] |] eqn:Hs2.
  - exists block, s'. split; [reflexivity |].
    vm_compute in Hs2. injection Hs2 as <- <-.
    vm_compute. repeat split.
  - vm_compute in Hs2. discriminate.
Qed.

(* ===================================================================== *)
(** ** The price process *)
(* ===================================================================== *)

Section Price.
Import PriceSimulator.
Local Open Scope Q_scope.


Lemma update_price_fst (p : t) timestamp now gauss :
  fst (update_price p timestamp now gauss)
  = py_max floor_price (current_price p * (1 + change_factor p gauss)).
Proof. reflexivity. Qed.


(** ** Support and resistance *)

Lemma count_near_cons near price level levels :
  count_near near price (level :: levels)
  == (if near price level then 1 else 0) + count_near near price levels.
Proof.
  unfold count_near. cbn [List.filter].
  destruct (near price level).
  - cbn [length]. rewrite Nat2Z.inj_succ. unfold Z.succ.
    rewrite inject_Z_plus.
    generalize (inject_Z (Z.of_nat (length (List.filter (near price) levels)))).
    intros c. change (inject_Z 1) with 1. lra.
  - generalize (inject_Z (Z.of_nat (length (List.filter (near price) levels)))).
    intros c. lra.
Qed.

Lemma fold_effect (near : Q -> Q -> bool) (price step : Q)
    (levels : list Q) (acc : Q) :
  fold_left
    (fun effect level => if near price level then effect + step else effect)
    levels acc
  == acc + step * count_near near price levels.
Proof.
  revert acc. induction levels as [| level levels IH]; intros acc.
  - unfold count_near. cbn [List.filter length].
    change (inject_Z (Z.of_nat 0)) with 0. cbn [fold_left]. lra.
  - cbn [fold_left]. rewrite IH, count_near_cons.
    destruct (near price level); lra.
Qed.

(** C9 (amended). The support/resistance component is +0.02 for each
    support level [s] with [0.95 * s <= price <= s] (the price sits at the
    level or up to 5% below it) and -0.02 for each resistance level [r]
    with [r <= price <= 1.05 * r] (the price sits at the level or up to 5%
    above it); the contributions of all levels add up. *)
Theorem support_resistance_effect_sum (p : t) :
  _support_resistance_effect p
  == 0.02 * count_near near_support (current_price p) (support_levels p)
     - 0.02 * count_near near_resistance (current_price p) (resistance_levels p)
  /\ (forall price s, near_support price s = true
                      <-> 0.95 * s <= price /\ price <= s)
  /\ (forall price r, near_resistance price r = true
                      <-> r <= price /\ price <= 1.05 * r).
Proof.
  split; [| split].
  - unfold _support_resistance_effect.
    pose proof (fold_effect near_resistance (current_price p) (- 0.02)
                  (resistance_levels p)) as Hres.
    assert (Hfold : forall l acc,
      fold_left
        (fun effect resistance =>
           if near_resistance (current_price p) resistance
           then effect - 0.02 else effect) l acc
      = fold_left
          (fun effect level =>
             if near_resistance (current_price p) level
             then effect + - 0.02 else effect) l acc).
    { induction l as [| r l IHl]; intros acc; [reflexivity |].
      cbn [fold_left]. rewrite IHl. reflexivity. }
    rewrite Hfold, Hres, fold_effect. lra.
  - intros price s. unfold near_support.
    rewrite andb_true_iff, !Qleb_le. reflexivity.
  - intros price r. unfold near_resistance.
    rewrite andb_true_iff, !Qleb_le. reflexivity.
Qed.

End Price.

(* ===================================================================== *)
(** ** The tokenomics engine *)
(* ===================================================================== *)

Section Tokenomics.
Import TokenomicsEngine.
Local Open Scope Q_scope.

(** C6 (amended). Whatever the pressures and the supply, the price
    returned by [calculate_price] is at least [min_price], and at most
    [max_price] when the configuration has [min_price <= max_price]; it
    becomes the current price, and every call multiplies both pressures by
    0.9, with zero supply and with a clamped price as well. *)
Theorem calculate_price_clamped (e : t) (timestamp : Q) :
  let res := calculate_price e timestamp in
  TokenomicsConfig.min_price (config e) <= fst res
  /\ (TokenomicsConfig.min_price (config e)
        <= TokenomicsConfig.max_price (config e) ->
      fst res <= TokenomicsConfig.max_price (config e))
  /\ current_price (snd res) = fst res
  /\ buy_pressure (snd res) = buy_pressure e * 0.9
  /\ sell_pressure (snd res) = sell_pressure e * 0.9
  /\ circulating_supply (snd res) = circulating_supply e.
Proof.
  intros res. unfold res, calculate_price. cbn [fst snd current_price
    buy_pressure sell_pressure circulating_supply].
  set (raw := current_price e * _).
  destruct (py_min_spec (TokenomicsConfig.max_price (config e)) raw)
    as (Hm1 & Hm2 & Hm3).
  destruct (py_max_spec (TokenomicsConfig.min_price (config e))
              (py_min (TokenomicsConfig.max_price (config e)) raw))
    as (HM1 & HM2 & HM3).
  repeat split; try assumption.
  intros Hle. destruct HM3 as [HM3 | HM3]; lra.
Qed.

(** ** Block rewards *)


End Tokenomics.

(* ===================================================================== *)
(** ** The transaction generator *)
(* ===================================================================== *)

Section Rounding.
Local Open Scope Q_scope.

Lemma round_half_even_near (y : Q) :
  inject_Z (round_half_even y) - 0.5 <= y
  /\ y <= inject_Z (round_half_even y) + 0.5
  /\ (Qfloor y <= round_half_even y)%Z.
Proof.
  unfold round_half_even.
  pose proof (Qfloor_le y) as Hlo. pose proof (Qlt_floor y) as Hhi.
  rewrite inject_Z_plus in Hhi. change (inject_Z 1) with 1 in Hhi.
  case_Qltb (y - inject_Z (Qfloor y)) 0.5 E1.
  { repeat split; try lra. lia. }
  case_Qltb 0.5 (y - inject_Z (Qfloor y)) E2.
  { rewrite inject_Z_plus. change (inject_Z 1) with 1.
    repeat split; try lra. lia. }
  destruct (Z.even (Qfloor y)).
  - repeat split; try lra. lia.
  - rewrite inject_Z_plus. change (inject_Z 1) with 1.
    repeat split; try lra. lia.
Qed.

(** Rounding to two decimals moves a value by at most half a cent and
    never takes a value that is at least 1 below 1. *)
Lemma py_round_2_near (x : Q) :
  - 0.005 <= py_round x 2 - x <= 0.005.
Proof.
  unfold py_round. change (inject_Z (10 ^ Z.of_nat 2)) with 100.
  destruct (round_half_even_near (x * 100)) as (Hlo & Hhi & _).
  set (n := inject_Z (round_half_even (x * 100))) in *.
  assert (Hdiv : n / 100 == n * 0.01) by (field).
  rewrite Hdiv. lra.
Qed.

Lemma py_round_2_ge_1 (x : Q) : 1 <= x -> 1 <= py_round x 2.
Proof.
  intros Hx. unfold py_round. change (inject_Z (10 ^ Z.of_nat 2)) with 100.
  destruct (round_half_even_near (x * 100)) as (_ & _ & Hfl).
  assert (Hf : (Qfloor 100 <= Qfloor (x * 100))%Z).
  { apply Qfloor_resp_le. lra. }
  change (Qfloor 100) with 100%Z in Hf.
  assert (Hn : inject_Z 100 <= inject_Z (round_half_even (x * 100))).
  { rewrite <- Zle_Qle. lia. }
  change (inject_Z 100) with 100 in Hn.
  set (n := inject_Z (round_half_even (x * 100))) in *.
  assert (Hdiv : n / 100 == n * 0.01) by (field).
  rewrite Hdiv. lra.
Qed.

Lemma uniform_range (a b u : Q) :
  a <= b -> 0 <= u -> u < 1 -> a <= uniform a b u <= b.
Proof.
  intros Hab Hu0 Hu1. unfold uniform.
  assert (H0 : 0 <= (b - a) * u) by (apply Qmult_le_0_compat; lra).
  assert (H1 : 0 <= (b - a) * (1 - u)) by (apply Qmult_le_0_compat; lra).
  split; [lra |].
  assert (Heq : (b - a) * (1 - u) == (b - a) - (b - a) * u) by ring.
  lra.
Qed.

End Rounding.

Section Generator.
Context `{PyFloat}.
Import TransactionGenerator.
Local Open Scope Q_scope.

Lemma generate_transaction_amount (g : t) (d : draws) :
  amount (generate_transaction g d) = py_round (sample_amount g d) 2.
Proof.
  unfold generate_transaction.
  destruct (Qltb (rand_type d) (buy_probability g)); [reflexivity |].
  destruct (Qltb (rand_type d) (buy_probability g + sell_probability g));
    reflexivity.
Qed.

(** C10. With the amount parameters that [__init__] sets
    ([min_amount = 1], [max_amount = 10000], [whale_threshold = 0.1]) and
    for every outcome of the draws, the amount of the generated transaction
    is the two-decimal rounding of a value taken affinely in the uniform
    draw from [0.5 * max_amount, max_amount] when the whale draw falls
    below 0.1 and from [min_amount, 0.1 * max_amount] otherwise; it is at
    least 1, hence strictly positive, and a ledger that rejects the
    transaction does so for insufficient balance of a sender other than
    ["SYSTEM"], never for the amount. *)
Theorem generated_amount_positive (g : t) (d : draws) :
  min_amount g == 1 -> max_amount g == 10000 -> whale_threshold g == 0.1 ->
  0 <= rand_amount d -> rand_amount d < 1 ->
  let tx := generate_transaction g d in
  amount tx = py_round (sample_amount g d) 2
  /\ (rand_whale d < 0.1 ->
        sample_amount g d
        = uniform (max_amount g * 0.5) (max_amount g) (rand_amount d)
        /\ max_amount g * 0.5 <= sample_amount g d <= max_amount g)
  /\ (0.1 <= rand_whale d ->
        sample_amount g d
        = uniform (min_amount g) (max_amount g * 0.1) (rand_amount d)
        /\ min_amount g <= sample_amount g d <= max_amount g * 0.1)
  /\ - 0.005 <= amount tx - sample_amount g d <= 0.005
  /\ 1 <= amount tx
  /\ 0 < amount tx
  /\ (forall (s : BlockchainSimulator.t) (now : Q),
        fst (BlockchainSimulator.add_transaction
               s (from_address tx) (to_address tx) (amount tx) now) = None ->
        from_address tx <> "SYSTEM"%string
        /\ BlockchainSimulator.get_balance s (from_address tx) < amount tx).
Proof.
  intros Hmin Hmax Hwh Hu0 Hu1 tx.
  assert (Hamt : amount tx = py_round (sample_amount g d) 2)
    by apply generate_transaction_amount.
  assert (Hwhale : rand_whale d < 0.1 ->
            sample_amount g d
            = uniform (max_amount g * 0.5) (max_amount g) (rand_amount d)
            /\ max_amount g * 0.5 <= sample_amount g d <= max_amount g).
  { intros Hw. unfold sample_amount.
    assert (E : Qltb (rand_whale d) (whale_threshold g) = true)
      by (apply Qltb_lt; lra).
    rewrite E. split; [reflexivity |].
    apply uniform_range; lra. }
  assert (Hretail : 0.1 <= rand_whale d ->
            sample_amount g d
            = uniform (min_amount g) (max_amount g * 0.1) (rand_amount d)
            /\ min_amount g <= sample_amount g d <= max_amount g * 0.1).
  { intros Hw. unfold sample_amount.
    assert (E : Qltb (rand_whale d) (whale_threshold g) = false)
      by (apply Qltb_ge; lra).
    rewrite E. split; [reflexivity |].
    apply uniform_range; lra. }
  assert (Hsample : 1 <= sample_amount g d).
  { destruct (Qlt_le_dec (rand_whale d) 0.1) as [Hw | Hw].
    - destruct (Hwhale Hw) as [_ Hr]. lra.
    - destruct (Hretail Hw) as [_ Hr]. lra. }
  assert (Hone : 1 <= amount tx).
  { rewrite Hamt. apply py_round_2_ge_1. exact Hsample. }
  split; [exact Hamt |]. split; [exact Hwhale |]. split; [exact Hretail |].
  split; [rewrite Hamt; apply py_round_2_near |].
  split; [exact Hone |]. split; [lra |].
  intros s now Hrej.
  destruct (add_transaction_cases
              s (from_address tx) (to_address tx) (amount tx) now)
    as [(Hne & Hlt & _) | [(Hle & _) | (_ & _ & Hacc)]].
  - split; assumption.
  - lra.
  - rewrite Hacc in Hrej. discriminate.
Qed.

End Generator.

(* ===================================================================== *)
(** ** Where the code departs from the stated properties *)
(* ===================================================================== *)


(** C4, as stated, fails on the chain that holds the genesis block only:
    [is_valid] accepts it, and accepts it again after the stored hash, or
    the stored [previous_hash], of the genesis block was overwritten. *)
Lemma genesis_overwrite_counterexample :
  let bc := BlockchainSimulator.blockchain Scenario.s0 in
  Blockchain.is_valid [] bc = true
  /\ Blockchain.is_valid [] (overwrite_hash 0 "tampered" bc) = true
  /\ Blockchain.is_valid [] (overwrite_previous_hash 0 "tampered" bc) = true
  /\ ~ hash_write_detected [] bc 0 "tampered"
  /\ ~ previous_hash_write_detected [] bc 0 "tampered".
Proof.
  repeat split; intros Hc.
  - specialize (Hc (Block.new [] 0 Blockchain.zero_hash [] 1700000000)).
    vm_compute in Hc.
    assert (Hf : true = false); [| discriminate Hf].
    apply Hc; [reflexivity | reflexivity |].
    intros Heq. discriminate Heq.
  - specialize (Hc (Block.new [] 0 Blockchain.zero_hash [] 1700000000)).
    vm_compute in Hc.
    assert (Hf : true = false); [| discriminate Hf].
    apply Hc; [reflexivity | reflexivity |].
    intros Heq. discriminate Heq.
Qed.


(** C6, as stated, fails when the configured bounds are crossed
    ([min_price = 10], [max_price = 1]): the outer [max] wins and the price
    returned is [min_price], above [max_price]. *)
Lemma crossed_bounds_counterexample :
  (fst (TokenomicsEngine.calculate_price crossed_bounds 1700000000) == 10)%Q
  /\ ~ price_within_bounds_and_decay crossed_bounds 1700000000.
Proof.
  split; [reflexivity |].
  unfold price_within_bounds_and_decay. intros ((_ & Hmax) & _).
  vm_compute in Hmax. apply Hmax. reflexivity.
Qed.


(** C9, as stated, fails: with one support level at 100 and the price at
    102, which sits within 5% above the level, the code adds nothing where
    the claim has +0.02. *)
Lemma support_side_counterexample :
  let p := PriceSimulator.add_support_level
             (PriceSimulator.init 102 0.05 1700000000) 100 in
  (PriceSimulator._support_resistance_effect p == 0)%Q
  /\ (PriceSimulator.spec_support_resistance p == 0.02)%Q
  /\ ~ effect_as_specified p.
Proof.
  split; [reflexivity |]. split; [reflexivity |].
  unfold effect_as_specified. vm_compute. discriminate.
Qed.

(* ===================================================================== *)
(** ** The theorems at concrete inputs *)
(* ===================================================================== *)


(** The spec's rejection scenario: 1000 asked of a balance of 100. *)
Lemma add_transaction_rejects_iff_witness :
  let res := BlockchainSimulator.add_transaction
               Scenario.s0 "A" "B" 1000 1700000001 in
  fst res = None /\ snd res = Scenario.s0.
Proof.
  destruct (add_transaction_rejects_iff Scenario.s0 "A" "B" 1000 1700000001)
    as [Hiff Hsame].
  assert (Hrej : fst (BlockchainSimulator.add_transaction
                        Scenario.s0 "A" "B" 1000 1700000001) = None).
  { apply Hiff. right. split; [discriminate | reflexivity]. }
  split; [exact Hrej |]. apply Hsame. exact Hrej.
Defined.

(** Block 1 of a valid two-block chain: both writes are detected. *)
Lemma is_valid_detects_overwrite_witness :
  Blockchain.is_valid [] Scenario.two_blocks = true
  /\ Blockchain.is_valid [] (overwrite_hash 1 "tampered" Scenario.two_blocks)
     = false
  /\ Blockchain.is_valid []
       (overwrite_previous_hash 1 "tampered" Scenario.two_blocks) = false.
Proof.
  assert (Hv : Blockchain.is_valid [] Scenario.two_blocks = true)
    by (vm_compute; reflexivity).
  destruct (Blockchain.chain Scenario.two_blocks !! 1%nat) as [b |] eqn:Hb;
    [| vm_compute in Hb; discriminate Hb].
  destruct (is_valid_detects_overwrite [] Scenario.two_blocks 1 b "tampered"
              Hv Hb) as (Hhash & Hprev & _).
  vm_compute in Hb. injection Hb as <-.
  split; [exact Hv |]. split.
  - apply Hhash; [vm_compute; discriminate | left; lia].
  - apply Hprev; [vm_compute; discriminate | lia].
Defined.


(** The default configuration under a buy pressure of a billion. *)
Lemma calculate_price_clamped_witness :
  let e := TokenomicsEngine.add_buy_pressure
             (TokenomicsEngine.initialize (TokenomicsEngine.init None)
                1000000 0.01 500000) 1000000000 in
  (fst (TokenomicsEngine.calculate_price e 1700000000) <= 1000)%Q.
Proof.
  destruct (calculate_price_clamped
              (TokenomicsEngine.add_buy_pressure
                 (TokenomicsEngine.initialize (TokenomicsEngine.init None)
                    1000000 0.01 500000) 1000000000) 1700000000)
    as (_ & Hmax & _).
  apply Hmax. vm_compute. discriminate.
Defined.


(** The state of the spec's scenario with one pending transaction. *)
Lemma create_block_seals_pending_witness :
  exists latest block s',
    last (BlockchainSimulator.get_chain Scenario.s1) = Some latest
    /\ BlockchainSimulator.create_block Scenario.s1 1700000002 1700000002
       = Some (block, s')
    /\ Block.transactions block = [0%nat]
    /\ Block.index block = 1%nat
    /\ BlockchainSimulator.get_pending_transactions s' = [].
Proof.
  assert (Hreach : reachable Scenario.s1).
  { apply reach_add_transaction, reach_initialize, reach_init. }
  destruct (create_block_seals_pending Scenario.s1 1700000002 1700000002
              Hreach)
    as (latest & block & s' & Hlast & Hcb & Htxs & _ & _ & Hidx & _ & _ & Hp).
  exists latest, block, s'.
  split; [exact Hlast |]. split; [exact Hcb |].
  split; [rewrite Htxs; reflexivity |].
  split; [| exact Hp].
  rewrite Hidx. vm_compute in Hlast. injection Hlast as <-. reflexivity.
Defined.

(** One support level at 100 and the price at 98. *)
Lemma support_resistance_effect_sum_witness :
  (PriceSimulator._support_resistance_effect
     (PriceSimulator.add_support_level
        (PriceSimulator.init 98 0.05 1700000000) 100) == 0.02)%Q.
Proof.
  destruct (support_resistance_effect_sum
              (PriceSimulator.add_support_level
                 (PriceSimulator.init 98 0.05 1700000000) 100)) as [Hsum _].
  rewrite Hsum. reflexivity.
Defined.

(** A generator fresh from its constructor and one outcome of the draws. *)
Lemma generated_amount_positive_witness :
  let g := TransactionGenerator.init 0.25 0.5 0.75 0.125 in
  let d := TransactionGenerator.mk_draws 0.3 0.5 0.25
             (TransactionGenerator.mk_wallet_draw 0 0.5 0.25)
             (TransactionGenerator.mk_wallet_draw 0 0.75 0.125) in
  (1 <= TransactionGenerator.amount
          (TransactionGenerator.generate_transaction g d))%Q.
Proof.
  destruct (generated_amount_positive
              (TransactionGenerator.init 0.25 0.5 0.75 0.125)
              (TransactionGenerator.mk_draws 0.3 0.5 0.25
                 (TransactionGenerator.mk_wallet_draw 0 0.5 0.25)
                 (TransactionGenerator.mk_wallet_draw 0 0.75 0.125)))
    as (_ & _ & _ & _ & Hone & _).
  - reflexivity.
  - reflexivity.
  - reflexivity.
  - vm_compute. discriminate.
  - reflexivity.
  - exact Hone.
Defined.

(* ===================================================================== *)
(** ** Further properties of the ledger and the chain *)
(* ===================================================================== *)

Section LedgerMore.
Context `{PyFloat}.
Import BlockchainSimulator.
Local Open Scope Q_scope.

(** X1. [add_transaction] never makes a balance negative: if no balance of
    the ledger is negative before the call, none is after it, whatever the
    arguments and whether the call is accepted or not. *)
Theorem add_transaction_keeps_nonneg (s : t) (from_addr to_addr : string)
    (amount now : Q) :
  balances_nonneg (ledger s) ->
  balances_nonneg (ledger (snd (add_transaction s from_addr to_addr amount now))).
Proof.
  intros Hnn.
  destruct (add_transaction_cases s from_addr to_addr amount now)
    as [(_ & _ & Hres) | [(_ & Hres) | (Hpos & Hbal & Hres)]].
  - rewrite Hres. exact Hnn.
  - rewrite Hres. exact Hnn.
  - rewrite add_transaction_ledger by (rewrite Hres; discriminate).
    cbv zeta.
    assert (Hl1 : balances_nonneg
                    (if negb (String.eqb from_addr "SYSTEM")
                     then <[from_addr := get_balance s from_addr - amount]>
                            (ledger s)
                     else ledger s)).
    { destruct (negb (String.eqb from_addr "SYSTEM")) eqn:Esys; [| exact Hnn].
      apply eqb_SYSTEM in Esys. specialize (Hbal Esys).
      apply map_Forall_insert_2; [lra | exact Hnn]. }
    apply map_Forall_insert_2; [| exact Hl1].
    match goal with |- 0 <= default 0 (?l !! to_addr) + amount =>
      destruct (l !! to_addr) as [v |] eqn:Hv; simpl;
        [specialize (Hl1 _ _ Hv); simpl in Hl1; lra | lra]
    end.
Qed.

(** X2. An accepted call adds the receiver to the addresses of the ledger
    and changes the set of addresses in no other way (a sender other than
    ["SYSTEM"] is already there); a rejected call leaves the set as it is.
    So [unique_addresses] of [get_stats] never shrinks and grows by at most
    one per call. *)
Theorem add_transaction_addresses (s : t) (from_addr to_addr : string)
    (amount now : Q) :
  let res := add_transaction s from_addr to_addr amount now in
  (fst res <> None -> dom (ledger (snd res)) = {[to_addr]} ∪ dom (ledger s))
  /\ (fst res = None -> dom (ledger (snd res)) = dom (ledger s))
  /\ (unique_addresses (get_stats s) <= unique_addresses (get_stats (snd res))
      <= S (unique_addresses (get_stats s)))%nat.
Proof.
  intros res.
  assert (Hacc : fst res <> None ->
                 dom (ledger (snd res)) = {[to_addr]} ∪ dom (ledger s)).
  { intros Hne. unfold res. rewrite add_transaction_ledger by exact Hne.
    cbv zeta. rewrite dom_insert_L.
    destruct (negb (String.eqb from_addr "SYSTEM")) eqn:Esys; [| reflexivity].
    rewrite dom_insert_L.
    assert (Hin : from_addr ∈ dom (ledger s)).
    { apply eqb_SYSTEM in Esys.
      destruct (add_transaction_cases s from_addr to_addr amount now)
        as [(_ & _ & Hres) | [(_ & Hres) | (Hpos & Hbal & _)]];
        try (fold res in Hres; rewrite Hres in Hne; simpl in Hne; congruence).
      specialize (Hbal Esys). apply elem_of_dom.
      unfold get_balance in Hbal.
      destruct (ledger s !! from_addr) as [v |]; [eauto | simpl in Hbal; lra]. }
    f_equal. apply subseteq_union_1_L, singleton_subseteq_l. exact Hin. }
  assert (Hrej : fst res = None -> dom (ledger (snd res)) = dom (ledger s)).
  { intros Hnone.
    destruct (add_transaction_cases s from_addr to_addr amount now)
      as [(_ & _ & Hres) | [(_ & Hres) | (_ & _ & Hres)]]; fold res in Hres.
    - rewrite Hres. reflexivity.
    - rewrite Hres. reflexivity.
    - rewrite Hres in Hnone. discriminate. }
  split; [exact Hacc |]. split; [exact Hrej |].
  unfold get_stats, unique_addresses. rewrite <- !size_dom.
  destruct (fst res) eqn:Hfst.
  - rewrite Hacc by discriminate.
    destruct (decide (to_addr ∈ dom (ledger s))) as [Hin | Hnin].
    + rewrite subseteq_union_1_L by (apply singleton_subseteq_l; exact Hin).
      lia.
    + rewrite size_union by (apply disjoint_singleton_l; exact Hnin).
      rewrite size_singleton. lia.
  - rewrite Hrej by reflexivity. lia.
Qed.

End LedgerMore.

Section ChainMore.
Context `{PyFloat}.
Import BlockchainSimulator.
Local Open Scope nat_scope.

Lemma transaction_new_fields from_addr to_addr amount now :
  Transaction.block_index (Transaction.new from_addr to_addr amount now) = None
  /\ Transaction.tx_hash (Transaction.new from_addr to_addr amount now)
     = Transaction._generate_hash
         (Transaction.new from_addr to_addr amount now)
  /\ Transaction.tx_hash (Transaction.new from_addr to_addr amount now)
     = substring 0 16
         (SHA256.hexdigest
            (from_addr +:+ to_addr +:+ float_repr amount +:+ float_repr now)).
Proof. unfold Transaction.new, Transaction.model_post_init. simpl. auto. Qed.

(** What an accepted call appends to the store and to the queue. *)
Lemma add_transaction_store (s : t) from_addr to_addr amount now :
  let s' := snd (add_transaction s from_addr to_addr amount now) in
  s' = s
  \/ (get_chain s' = get_chain s
      /\ get_pending_transactions s'
         = get_pending_transactions s ++ [length (objects s)]
      /\ objects s'
         = objects s ++ [Transaction.new from_addr to_addr amount now]
      /\ last_block_time s' = last_block_time s
      /\ block_time s' = block_time s).
Proof.
  unfold add_transaction.
  destruct (_ && _); [left; reflexivity |].
  destruct (Qleb amount 0); [left; reflexivity |].
  right. simpl. repeat split.
Qed.

Lemma elem_of_sealed (chain : list Block.t) (r : tx_ref) :
  r ∈ concat (map Block.transactions chain)
  <-> exists i b, chain !! i = Some b /\ r ∈ Block.transactions b.
Proof.
  induction chain as [| b0 chain IH]; simpl.
  - split; [intros Hin; inversion Hin | intros (i & b & Hb & _); discriminate].
  - rewrite elem_of_app, IH. split.
    + intros [Hr | (i & b & Hb & Hr)]; [exists 0, b0 | exists (S i), b]; auto.
    + intros ([| i] & b & Hb & Hr); simpl in Hb.
      * injection Hb as <-. auto.
      * right. eauto.
Qed.

Lemma length_sealed (chain : list Block.t) :
  length (concat (map Block.transactions chain))
  = sum_list (map (fun block => length (Block.transactions block)) chain).
Proof.
  induction chain as [| b chain IH]; simpl; [reflexivity |].
  rewrite length_app, IH. reflexivity.
Qed.

Lemma all_refs_bound (s : t) r :
  all_refs s = seq 0 (length (objects s)) ->
  r ∈ all_refs s -> r < length (objects s).
Proof.
  intros Heq Hin. rewrite Heq in Hin. apply elem_of_seq in Hin. lia.
Qed.

(** The accounting invariant of the simulator. *)
Lemma reachable_accounting (s : t) :
  reachable s ->
  all_refs s = seq 0 (length (objects s))
  /\ (forall i b r, get_chain s !! i = Some b -> r ∈ Block.transactions b ->
                    stamped_as s r (Some i))
  /\ (forall r, r ∈ get_pending_transactions s -> stamped_as s r None).
Proof.
  induction 1 as [t0 t1 | s d _ IH | s fa ta amt now _ IH
                  | s t0 t1 block s' Hreach IH Hcb].
  - split; [reflexivity |]. split.
    + intros [| i] b r Hb Hr; simpl in Hb; [| discriminate].
      injection Hb as <-. simpl in Hr. inversion Hr.
    + intros r Hr. inversion Hr.
  - exact IH.
  - destruct IH as (Hall & Hsealed & Hpend).
    destruct (add_transaction_store s fa ta amt now)
      as [-> | (Hc & Hp & Ho & _)]; [auto |].
    assert (Hold : forall r o, r ∈ all_refs s -> stamped_as s r o ->
              stamped_as (snd (add_transaction s fa ta amt now)) r o).
    { intros r o Hin (tx & Htx & Hidx). exists tx. split; [| exact Hidx].
      rewrite Ho. apply lookup_app_l_Some. exact Htx. }
    split; [| split].
    + unfold all_refs. rewrite Hc, Hp, Ho, length_app. simpl.
      rewrite Nat.add_1_r, seq_S, app_assoc. simpl.
      unfold all_refs in Hall. rewrite Hall. reflexivity.
    + rewrite Hc. intros i b r Hb Hr. apply Hold; [| eauto].
      unfold all_refs. apply elem_of_app. left.
      apply elem_of_sealed. eauto.
    + rewrite Hp. intros r Hr. apply elem_of_app in Hr.
      destruct Hr as [Hr | Hr].
      * apply Hold; [| auto]. unfold all_refs. apply elem_of_app. auto.
      * apply list_elem_of_singleton in Hr. subst r.
        exists (Transaction.new fa ta amt now). split.
        -- rewrite Ho. apply list_lookup_middle. reflexivity.
        -- apply transaction_new_fields.
  - destruct IH as (Hall & Hsealed & Hpend).
    destruct (reachable_well_formed s Hreach) as (_ & Hidx & _).
    destruct (create_block_shape s t0 t1 block s' Hcb)
      as (latest & Hlast & Hblock & Hc & Hp & Ho).
    destruct (block_new_fields (objects s) (length (get_chain s))
                (Block.hash latest) (get_pending_transactions s) t0)
      as (Hi & Ht & _).
    rewrite <- Hblock in Hi, Ht.
    assert (Hnodup : NoDup (all_refs s)).
    { rewrite Hall. apply NoDup_seq. }
    unfold all_refs in Hnodup. apply NoDup_app in Hnodup.
    destruct Hnodup as (_ & Hdisj & _).
    split; [| split].
    + unfold all_refs. rewrite Hc, Hp, Ho, stamp_length.
      rewrite map_app, concat_app. simpl. rewrite Ht, !app_nil_r.
      exact Hall.
    + rewrite Hc. intros i b r Hb Hr.
      apply lookup_app_Some in Hb. destruct Hb as [Hb | [Hge Hb]].
      * destruct (Hsealed i b r Hb Hr) as (tx & Htx & Hbi).
        exists tx. split; [| exact Hbi].
        rewrite Ho, stamp_lookup.
        destruct (decide (r ∈ Block.transactions block)) as [Hin | _];
          [| exact Htx].
        exfalso. rewrite Ht in Hin. apply (Hdisj r); [| exact Hin].
        apply elem_of_sealed. eauto.
      * apply list_lookup_singleton_Some in Hb. destruct Hb as [Hi0 <-].
        assert (Hr' : r ∈ get_pending_transactions s) by (rewrite <- Ht; exact Hr).
        destruct (Hpend r Hr') as (tx & Htx & _).
        exists (Transaction.set_block_index (Block.index block) tx).
        split.
        -- rewrite Ho, stamp_lookup.
           destruct (decide (r ∈ Block.transactions block)) as [_ | Hn];
             [| contradiction].
           rewrite Htx. reflexivity.
        -- simpl. f_equal. rewrite Hi. lia.
    + rewrite Hp. intros r Hr. inversion Hr.
Qed.

(** X3. In every state of the simulator, the transactions sealed in the
    blocks, in chain order, followed by the pending queue are exactly the
    transactions accepted so far, each once and in the order of acceptance;
    so [get_total_transactions] plus the length of the pending queue is the
    number of accepted transactions. *)
Theorem accepted_transactions_accounted (s : t) :
  reachable s ->
  all_refs s = seq 0 (length (objects s))
  /\ NoDup (all_refs s)
  /\ get_total_transactions s + length (get_pending_transactions s)
     = length (objects s).
Proof.
  intros Hreach. destruct (reachable_accounting s Hreach) as (Hall & _).
  split; [exact Hall |]. split; [rewrite Hall; apply NoDup_seq |].
  assert (Hlen : length (all_refs s) = length (objects s)).
  { rewrite Hall. apply length_seq. }
  unfold all_refs in Hlen. rewrite length_app, length_sealed in Hlen.
  exact Hlen.
Qed.

(** X4. In every state of the simulator, a transaction's [block_index]
    tells where it is: it is the index of the block that holds it, and it
    is [None] exactly while the transaction waits in the pending queue. *)
Theorem block_index_locates_transaction (s : t) :
  reachable s ->
  (forall i b r, get_chain s !! i = Some b -> r ∈ Block.transactions b ->
     exists tx, objects s !! r = Some tx
                /\ Transaction.block_index tx = Some (Block.index b))
  /\ (forall r, r ∈ get_pending_transactions s ->
        exists tx, objects s !! r = Some tx
                   /\ Transaction.block_index tx = None)
  /\ (forall r tx, objects s !! r = Some tx ->
        (Transaction.block_index tx = None
         <-> r ∈ get_pending_transactions s)).
Proof.
  intros Hreach.
  destruct (reachable_accounting s Hreach) as (Hall & Hsealed & Hpend).
  destruct (reachable_well_formed s Hreach) as (_ & Hidx & _).
  split; [| split].
  - intros i b r Hb Hr. destruct (Hsealed i b r Hb Hr) as (tx & Htx & Hbi).
    exists tx. rewrite (Hidx i b Hb). auto.
  - exact Hpend.
  - intros r tx Htx. split.
    + intros Hnone.
      assert (Hin : r ∈ all_refs s).
      { rewrite Hall. apply elem_of_seq. apply lookup_lt_Some in Htx. lia. }
      unfold all_refs in Hin. apply elem_of_app in Hin.
      destruct Hin as [Hin | Hin]; [| exact Hin].
      exfalso. apply elem_of_sealed in Hin.
      destruct Hin as (i & b & Hb & Hr).
      destruct (Hsealed i b r Hb Hr) as (tx' & Htx' & Hbi).
      congruence.
    + intros Hin. destruct (Hpend r Hin) as (tx' & Htx' & Hbi). congruence.
Qed.

End ChainMore.

(* ===================================================================== *)
(** ** Further properties of the hashes and of block creation *)
(* ===================================================================== *)

Section Digest.
Local Open Scope nat_scope.

Lemma compress_length (h block : list Z) :
  length h = 8 -> length (SHA256.compress h block) = 8.
Proof.
  intros Hh. unfold SHA256.compress.
  rewrite length_map, length_combine, Hh. reflexivity.
Qed.

Lemma digest_words_length (msg : list Z) :
  length (SHA256.digest_words msg) = 8.
Proof.
  unfold SHA256.digest_words.
  generalize (SHA256.blocks
                (length (SHA256.be_words (length (SHA256.pad msg))
                                         (SHA256.pad msg)))
                (SHA256.be_words (length (SHA256.pad msg)) (SHA256.pad msg))).
  intros bs.
  assert (Hinit : length SHA256.init_state = 8) by reflexivity.
  revert Hinit. generalize SHA256.init_state.
  induction bs as [| b bs IH]; intros h Hh; simpl; [exact Hh |].
  apply IH, compress_length, Hh.
Qed.

Lemma hex_of_length n x : length (SHA256.hex_of n x) = n.
Proof.
  revert x. induction n as [| n IH]; intros x; [reflexivity |].
  cbn [SHA256.hex_of]. rewrite length_app, IH. simpl. lia.
Qed.

Lemma string_of_list_ascii_length (l : list ascii) :
  String.length (string_of_list_ascii l) = length l.
Proof.
  induction l as [| c l IH]; [reflexivity |].
  cbn [string_of_list_ascii String.length length]. rewrite IH. reflexivity.
Qed.

Lemma concat_hex_length (ws : list Z) :
  length (concat (map (SHA256.hex_of 8) ws)) = 8 * length ws.
Proof.
  induction ws as [| w ws IH]; [reflexivity |].
  cbn [map concat]. rewrite length_app, hex_of_length, IH. simpl. lia.
Qed.

(** A digest is always 64 characters long. *)
Lemma hexdigest_length (s : string) : String.length (SHA256.hexdigest s) = 64.
Proof.
  unfold SHA256.hexdigest.
  rewrite string_of_list_ascii_length, concat_hex_length, digest_words_length.
  reflexivity.
Qed.

Lemma substring_prefix_length (n : nat) (s : string) :
  n <= String.length s -> String.length (substring 0 n s) = n.
Proof.
  revert s. induction n as [| n IH]; intros s Hn.
  - destruct s; reflexivity.
  - destruct s as [| c s]; simpl in *; [lia |].
    rewrite IH by lia. reflexivity.
Qed.

Lemma append_length (a b : string) :
  String.length (a +:+ b) = String.length a + String.length b.
Proof.
  induction a as [| c a IH]; [reflexivity |].
  simpl. rewrite IH. reflexivity.
Qed.

End Digest.

Section BlocksMore.
Context `{PyFloat}.
Import BlockchainSimulator.
Local Open Scope nat_scope.

Lemma generate_hash_length (h : heap) (b : Block.t) :
  String.length (Block._generate_hash h b) = 64.
Proof. apply hexdigest_length. Qed.

(** The recomputed hash of a block without transactions does not depend
    on the store. *)
Lemma generate_hash_no_transactions (h h' : heap) (b : Block.t) :
  Block.transactions b = [] ->
  Block._generate_hash h b = Block._generate_hash h' b.
Proof. intros Ht. unfold Block._generate_hash. rewrite Ht. reflexivity. Qed.

(** The invariant of the blocks of the simulator: the first block is the
    genesis block, every later block links to the stored hash of the one
    before, and every stored hash is the block's own digest over some
    store. *)
Lemma reachable_blocks (s : t) :
  reachable s ->
  (exists g, get_chain s !! 0 = Some g
             /\ Block.previous_hash g = Blockchain.zero_hash
             /\ Block.transactions g = [])
  /\ (forall i p c, get_chain s !! i = Some p -> get_chain s !! S i = Some c ->
        Block.previous_hash c = Block.hash p)
  /\ (forall i b, get_chain s !! i = Some b ->
        exists h0, Block.hash b = Block._generate_hash h0 b).
Proof.
  induction 1 as [t0 t1 | s d _ IH | s fa ta amt now _ IH
                  | s t0 t1 block s' Hreach IH Hcb].
  - split; [| split].
    + eexists. split; [reflexivity |]. split; reflexivity.
    + intros [| i] p c _ Hc; discriminate.
    + intros [| i] b Hb; simpl in Hb; [| discriminate].
      injection Hb as <-. exists []. reflexivity.
  - exact IH.
  - destruct (add_transaction_store s fa ta amt now)
      as [-> | (Hc & _)]; [exact IH |].
    rewrite Hc. exact IH.
  - destruct IH as ((g & Hg & Hgp & Hgt) & Hlink & Hhash).
    destruct (create_block_shape s t0 t1 block s' Hcb)
      as (latest & Hlast & Hblock & Hc & _).
    destruct (block_new_fields (objects s) (length (get_chain s))
                (Block.hash latest) (get_pending_transactions s) t0)
      as (_ & _ & Hph & Hh).
    rewrite <- Hblock in Hph, Hh.
    rewrite last_lookup in Hlast.
    pose proof (lookup_lt_Some _ _ _ Hlast) as Hlt.
    rewrite Hc. split; [| split].
    + exists g. split; [| auto]. apply lookup_app_l_Some. exact Hg.
    + intros i p c Hp Hcc.
      apply lookup_app_Some in Hcc. destruct Hcc as [Hcc | [Hge Hcc]].
      * apply (Hlink i); [| exact Hcc].
        rewrite lookup_app_l in Hp; [exact Hp |].
        apply lookup_lt_Some in Hcc. lia.
      * apply list_lookup_singleton_Some in Hcc. destruct Hcc as [Hi <-].
        assert (Hi' : i = pred (length (get_chain s))) by lia. subst i.
        rewrite lookup_app_l in Hp by lia.
        rewrite Hlast in Hp. injection Hp as <-. exact Hph.
    + intros i b Hb.
      apply lookup_app_Some in Hb. destruct Hb as [Hb | [_ Hb]].
      * apply (Hhash i). exact Hb.
      * apply list_lookup_singleton_Some in Hb. destruct Hb as [_ <-].
        exists (objects s). exact Hh.
Qed.

(** X5. In every state of the simulator the chain starts with the genesis
    block (index 0, all-zero [previous_hash], no transactions), the block
    at position [i] has index [i], every later block stores the hash of
    its predecessor as [previous_hash], and every stored hash and
    [previous_hash] is 64 characters long. *)
Theorem chain_is_linked (s : t) :
  reachable s ->
  (exists g, get_chain s !! 0 = Some g
             /\ Block.index g = 0
             /\ Block.previous_hash g = Blockchain.zero_hash
             /\ Block.transactions g = [])
  /\ (forall i b, get_chain s !! i = Some b -> Block.index b = i)
  /\ (forall i p c, get_chain s !! i = Some p -> get_chain s !! S i = Some c ->
        Block.previous_hash c = Block.hash p)
  /\ (forall i b, get_chain s !! i = Some b ->
        String.length (Block.hash b) = 64
        /\ String.length (Block.previous_hash b) = 64).
Proof.
  intros Hreach.
  destruct (reachable_blocks s Hreach) as ((g & Hg & Hgp & Hgt) & Hlink & Hhash).
  destruct (reachable_well_formed s Hreach) as (_ & Hidx & _).
  assert (Hlen : forall i b, get_chain s !! i = Some b ->
                             String.length (Block.hash b) = 64).
  { intros i b Hb. destruct (Hhash i b Hb) as [h0 ->].
    apply generate_hash_length. }
  split; [| split; [| split]].
  - exists g. rewrite (Hidx 0 g Hg). auto.
  - exact Hidx.
  - exact Hlink.
  - intros i b Hb. split; [eapply Hlen; eauto |].
    destruct i as [| j].
    + rewrite Hg in Hb. injection Hb as <-. rewrite Hgp. reflexivity.
    + destruct (lookup_lt_is_Some_2 (get_chain s) j) as [p Hp].
      { apply lookup_lt_Some in Hb. lia. }
      rewrite (Hlink j p b Hp Hb). eapply Hlen; eauto.
Qed.

(** X6. In every state of the simulator, [is_valid] returns true exactly
    when the stored hash of every block after the genesis block equals its
    recomputation over the current transactions; the linkage test never
    fails.  In particular a chain in which no block holds a transaction is
    valid. *)
Theorem is_valid_iff_hashes_current (s : t) :
  reachable s ->
  (is_valid s = true
   <-> forall i b, 1 <= i -> get_chain s !! i = Some b ->
                   Block.hash b = Block._generate_hash (objects s) b)
  /\ ((forall i b, get_chain s !! i = Some b -> Block.transactions b = []) ->
      is_valid s = true).
Proof.
  intros Hreach.
  destruct (reachable_blocks s Hreach) as (_ & Hlink & Hhash).
  assert (Hiff : is_valid s = true
                 <-> forall i b, 1 <= i -> get_chain s !! i = Some b ->
                       Block.hash b = Block._generate_hash (objects s) b).
  { unfold is_valid. rewrite is_valid_true.
    fold (get_chain s). split.
    - intros Hall [| j] b Hi Hb; [lia |].
      destruct (lookup_lt_is_Some_2 (get_chain s) j) as [p Hp].
      { apply lookup_lt_Some in Hb. lia. }
      specialize (Hall j p b Hp Hb). apply check_block_true in Hall.
      apply Hall.
    - intros Hall i p c Hp Hc. apply check_block_true. split.
      + apply (Hlink i); assumption.
      + apply (Hall (S i)); [lia | exact Hc]. }
  split; [exact Hiff |].
  intros Hempty. apply Hiff. intros i b _ Hb.
  destruct (Hhash i b Hb) as [h0 Hh0]. rewrite Hh0.
  apply generate_hash_no_transactions. eapply Hempty; eauto.
Qed.

(** X7. [should_create_block] is true exactly when at least [block_time]
    has passed since [last_block_time] and the pending queue is not empty.
    It is therefore false right after [create_block], whatever the clock
    says, and once true it stays true as time passes. *)
Theorem should_create_block_policy (s : t) (now : Q) :
  (should_create_block s now = true
   <-> (block_time s <= now - last_block_time s)%Q
       /\ get_pending_transactions s <> [])
  /\ (forall now_block now_last block s',
        create_block s now_block now_last = Some (block, s') ->
        should_create_block s' now = false)
  /\ (forall later, should_create_block s now = true -> (now <= later)%Q ->
        should_create_block s later = true).
Proof.
  assert (Hiff : forall s0 t,
            should_create_block s0 t = true
            <-> (block_time s0 <= t - last_block_time s0)%Q
                /\ get_pending_transactions s0 <> []).
  { intros s0 t. unfold should_create_block.
    rewrite andb_true_iff, Qleb_le, Nat.ltb_lt.
    destruct (get_pending_transactions s0); simpl; split;
      intros [H1 H2]; split; try assumption; try lia; congruence. }
  split; [apply Hiff |]. split.
  - intros now_block now_last block s' Hcb.
    destruct (create_block_shape s now_block now_last block s' Hcb)
      as (_ & _ & _ & _ & Hp & _).
    destruct (should_create_block s' now) eqn:E; [| reflexivity].
    apply Hiff in E. destruct E as [_ E]. congruence.
  - intros later Htrue Hle. apply Hiff in Htrue. apply Hiff.
    destruct Htrue as [Ht Hp]. split; [lra | exact Hp].
Qed.

(** X8. In every state of the simulator, the [tx_hash] of every
    transaction is 16 characters long and is still the digest of the
    transaction's sender, receiver, amount and timestamp: writing
    [block_index] when the block is sealed does not touch what the
    transaction hash covers. *)
Theorem tx_hash_stays_current (s : t) :
  reachable s ->
  forall r tx, objects s !! r = Some tx ->
    Transaction.tx_hash tx = Transaction._generate_hash tx
    /\ String.length (Transaction.tx_hash tx) = 16.
Proof.
  assert (Hlen : forall tx,
            String.length (Transaction._generate_hash tx) = 16).
  { intros tx. unfold Transaction._generate_hash.
    apply substring_prefix_length. rewrite hexdigest_length. lia. }
  assert (Hgoal : forall s0, reachable s0 -> forall r tx,
            objects s0 !! r = Some tx ->
            Transaction.tx_hash tx = Transaction._generate_hash tx).
  { induction 1 as [t0 t1 | s0 d _ IH | s0 fa ta amt now _ IH
                    | s0 t0 t1 block s' _ IH Hcb]; intros r tx Htx.
    - discriminate.
    - eapply IH; eauto.
    - destruct (add_transaction_store s0 fa ta amt now)
        as [Heq | (_ & _ & Ho & _)].
      + rewrite Heq in Htx. eapply IH; eauto.
      + rewrite Ho in Htx. apply lookup_app_Some in Htx.
        destruct Htx as [Htx | [_ Htx]]; [eapply IH; eauto |].
        apply list_lookup_singleton_Some in Htx. destruct Htx as [_ <-].
        apply transaction_new_fields.
    - destruct (create_block_shape s0 t0 t1 block s' Hcb)
        as (_ & _ & _ & _ & _ & Ho).
      rewrite Ho, stamp_lookup in Htx.
      destruct (decide (r ∈ Block.transactions block)).
      + destruct (objects s0 !! r) as [tx0 |] eqn:Htx0; [| discriminate].
        simpl in Htx. injection Htx as <-.
        specialize (IH r tx0 Htx0).
        unfold Transaction._generate_hash in *. simpl. exact IH.
      + eapply IH; eauto. }
  intros Hreach r tx Htx. specialize (Hgoal s Hreach r tx Htx).
  split; [exact Hgoal |]. rewrite Hgoal. apply Hlen.
Qed.

End BlocksMore.

(* ===================================================================== *)
(** ** Further properties of the price process *)
(* ===================================================================== *)

Section PriceMore.
Import PriceSimulator.
Local Open Scope Q_scope.

Lemma add_market_impact_fields (p : t) buy_volume sell_volume total_supply :
  let p' := snd (add_market_impact p buy_volume sell_volume total_supply) in
  current_price p' = current_price p
  /\ price_history p' = price_history p
  /\ initial_price p' = initial_price p
  /\ all_time_high p' = all_time_high p
  /\ all_time_low p' = all_time_low p
  /\ mean_price p' = mean_price p.
Proof.
  unfold add_market_impact.
  destruct (Qeq_bool total_supply 0); simpl; repeat split.
Qed.

(** The history starts with the initial price. *)
Lemma price_history_first (p : t) :
  price_reachable p ->
  exists ts rest, price_history p = (ts, initial_price p) :: rest.
Proof.
  induction 1 as [initial vol now | p price now _ IH | p v _ IH
                  | p b sl ts _ IH | p lv _ IH | p lv _ IH
                  | p timestamp now gauss _ IH]; simpl; eauto.
  - destruct (add_market_impact_fields p b sl ts) as (_ & -> & -> & _).
    exact IH.
  - destruct IH as (ts0 & rest & ->). simpl. eauto.
Qed.

(** X9. In every state of the price process, the all-time low and high
    bracket the current price and every price of the history; the history
    is never empty, its first entry is the initial price and its last
    entry the current price. *)
Theorem price_extremes_bracket_history (p : t) :
  price_reachable p ->
  all_time_low p <= current_price p <= all_time_high p
  /\ (forall ts v, (ts, v) ∈ price_history p ->
        all_time_low p <= v <= all_time_high p)
  /\ (exists ts rest, price_history p = (ts, initial_price p) :: rest)
  /\ (exists ts, last (price_history p) = Some (ts, current_price p)).
Proof.
  induction 1 as [initial vol now | p price now _ IH | p v _ IH
                  | p b sl ts _ IH | p lv _ IH | p lv _ IH
                  | p timestamp now gauss _ IH].
  - simpl. split; [lra |]. split; [| split; eauto].
    intros ts v Hin. apply list_elem_of_singleton in Hin.
    injection Hin as _ ->. lra.
  - simpl. split; [lra |]. split; [| split; eauto].
    intros ts v Hin. apply list_elem_of_singleton in Hin.
    injection Hin as _ ->. lra.
  - exact IH.
  - destruct (add_market_impact_fields p b sl ts)
      as (-> & -> & -> & -> & -> & _). exact IH.
  - exact IH.
  - exact IH.
  - destruct IH as (Hcur & Hhist & (ts0 & rest & Hfirst) & _).
    unfold update_price. cbn [snd current_price all_time_high all_time_low
      price_history initial_price].
    set (new_price := py_max floor_price _).
    destruct (py_max_spec (all_time_high p) new_price) as (Hh1 & Hh2 & _).
    destruct (py_min_spec (all_time_low p) new_price) as (Hl1 & Hl2 & _).
    split; [lra |]. split; [| split].
    + intros ts v Hin. apply elem_of_app in Hin. destruct Hin as [Hin | Hin].
      * specialize (Hhist ts v Hin). lra.
      * apply list_elem_of_singleton in Hin. injection Hin as _ ->. lra.
    + rewrite Hfirst. simpl. eauto.
    + exists (default now timestamp). apply last_snoc.
Qed.




(** X12. [get_price_change_24h] is 0 while the history holds one entry;
    with two or more entries and an initial price other than 0 it is the
    change of the current price against the initial price, in percent. *)
Theorem price_change_against_initial (p : t) :
  price_reachable p ->
  (length (price_history p) = 1%nat -> get_price_change_24h p = 0)
  /\ ((2 <= length (price_history p))%nat ->
        (initial_price p == 0 -> get_price_change_24h p = 0)
        /\ (~ initial_price p == 0 ->
              get_price_change_24h p
              = (current_price p - initial_price p) / initial_price p * 100)).
Proof.
  intros Hreach.
  destruct (price_history_first p Hreach) as (ts & rest & Hfirst).
  unfold get_price_change_24h. rewrite Hfirst. cbn [length].
  split.
  - intros Hlen. injection Hlen as Hlen. rewrite Hlen. reflexivity.
  - intros Hlen.
    destruct (length rest) as [| n] eqn:Hn; [lia |]. cbn [Nat.ltb Nat.leb].
    destruct (Qeq_bool (initial_price p) 0) eqn:E.
    + split; [reflexivity |]. intros Hne. exfalso. apply Hne.
      apply Qeq_bool_iff. exact E.
    + split; [| reflexivity]. intros Heq. apply Qeq_bool_iff in Heq.
      congruence.
Qed.

(** X13. [get_chart_data(limit)] always returns a suffix of the history:
    the whole history for [limit = 0] and for every limit that is at least
    its length, and otherwise the last [limit] entries for a positive
    limit, and all but the first [-limit] entries for a negative one. *)
Theorem get_chart_data_suffix (p : t) (limit : Z) :
  let data := get_chart_data p limit in
  (exists older, price_history p = older ++ data)
  /\ (limit = 0%Z -> data = price_history p)
  /\ ((0 < limit)%Z ->
        length data = Nat.min (Z.to_nat limit) (length (price_history p)))
  /\ ((Z.of_nat (length (price_history p)) <= limit)%Z ->
        data = price_history p)
  /\ ((limit < 0)%Z ->
        length data = (length (price_history p) - Z.to_nat (- limit))%nat).
Proof.
  intros data. unfold data, get_chart_data.
  destruct (limit =? 0)%Z eqn:E0.
  - apply Z.eqb_eq in E0. subst limit.
    split; [exists []; reflexivity |].
    split; [reflexivity |]. split; [lia |].
    split; [reflexivity | lia].
  - apply Z.eqb_neq in E0.
    destruct (0 <? limit)%Z eqn:Epos.
    + apply Z.ltb_lt in Epos.
      split; [eexists; symmetry; apply take_drop |].
      split; [lia |]. split; [intros _; rewrite length_drop; lia |].
      split; [| lia].
      intros Hge.
      replace (length (price_history p) - Z.to_nat limit)%nat with 0%nat
        by lia.
      reflexivity.
    + apply Z.ltb_ge in Epos.
      split; [eexists; symmetry; apply take_drop |].
      split; [lia |]. split; [lia |].
      split; [| intros _; apply length_drop].
      intros Hge. lia.
Qed.



End PriceMore.

(* ===================================================================== *)
(** ** Further properties of the tokenomics engine *)
(* ===================================================================== *)

Section TokenomicsMore.
Import TokenomicsEngine.
Local Open Scope Q_scope.




(** X17. With the current price within the configured bounds and not
    negative, a stability factor that is not negative and a positive
    circulating supply, [calculate_price] never lowers the price when buy
    pressure is at least sell pressure and never raises it when sell
    pressure is at least buy pressure; with balanced pressure, or with a
    supply that is not positive, the price stays as it is. *)
Theorem calculate_price_follows_pressure (e : t) (timestamp : Q) :
  TokenomicsConfig.min_price (config e) <= current_price e ->
  current_price e <= TokenomicsConfig.max_price (config e) ->
  0 <= current_price e ->
  0 <= TokenomicsConfig.stability_factor (config e) ->
  let new_price := fst (calculate_price e timestamp) in
  (0 < circulating_supply e -> sell_pressure e <= buy_pressure e ->
     current_price e <= new_price)
  /\ (0 < circulating_supply e -> buy_pressure e <= sell_pressure e ->
        new_price <= current_price e)
  /\ (buy_pressure e == sell_pressure e -> new_price == current_price e)
  /\ (circulating_supply e <= 0 -> new_price == current_price e).
Proof.
  intros Hmin Hmax Hcur Hstab new_price.
  unfold new_price, calculate_price. cbn [fst].
  set (ratio := if Qltb 0 (circulating_supply e)
                then (buy_pressure e - sell_pressure e) / circulating_supply e
                else 0).
  set (change := ratio * TokenomicsConfig.stability_factor (config e)).
  set (raw := current_price e * (1 + change)).
  assert (Hraw : raw == current_price e + current_price e * change)
    by (unfold raw; ring).
  destruct (py_min_spec (TokenomicsConfig.max_price (config e)) raw)
    as (Hm1 & Hm2 & Hm3).
  destruct (py_max_spec (TokenomicsConfig.min_price (config e))
              (py_min (TokenomicsConfig.max_price (config e)) raw))
    as (HM1 & HM2 & HM3).
  assert (Hup : 0 <= ratio -> 0 <= current_price e * change).
  { intros Hr. apply Qmult_le_0_compat; [exact Hcur |].
    apply Qmult_le_0_compat; assumption. }
  assert (Hdown : ratio <= 0 -> current_price e * change <= 0).
  { intros Hr.
    assert (H0 : 0 <= current_price e * (- ratio
                   * TokenomicsConfig.stability_factor (config e))).
    { apply Qmult_le_0_compat; [exact Hcur |].
      apply Qmult_le_0_compat; lra. }
    assert (E : current_price e * (- ratio
                  * TokenomicsConfig.stability_factor (config e))
                == - (current_price e * change)) by (unfold change; ring).
    lra. }
  assert (Hzero : ratio == 0 -> current_price e * change == 0).
  { intros Hr. unfold change. rewrite Hr. ring. }
  split; [| split; [| split]].
  - intros Hsup Hbs.
    assert (Hr : 0 <= ratio).
    { unfold ratio. apply Qltb_lt in Hsup. rewrite Hsup.
      apply Qltb_lt in Hsup.
      apply Qle_shift_div_l; [exact Hsup | lra]. }
    specialize (Hup Hr). destruct Hm3, HM3; lra.
  - intros Hsup Hbs.
    assert (Hr : ratio <= 0).
    { unfold ratio. apply Qltb_lt in Hsup. rewrite Hsup.
      apply Qltb_lt in Hsup.
      apply Qle_shift_div_r; [exact Hsup | lra]. }
    specialize (Hdown Hr). destruct Hm3, HM3; lra.
  - intros Heq.
    assert (Hr : ratio == 0).
    { unfold ratio. destruct (Qltb 0 (circulating_supply e)); [| reflexivity].
      assert (E : buy_pressure e - sell_pressure e == 0) by lra.
      rewrite E. unfold Qdiv. ring. }
    specialize (Hzero Hr). destruct Hm3, HM3; lra.
  - intros Hsup.
    assert (Hr : ratio == 0).
    { unfold ratio.
      assert (E : Qltb 0 (circulating_supply e) = false)
        by (apply Qltb_ge; exact Hsup).
      rewrite E. reflexivity. }
    specialize (Hzero Hr). destruct Hm3, HM3; lra.
Qed.

Lemma calculate_price_fields (e : t) (timestamp : Q) :
  let e' := snd (calculate_price e timestamp) in
  config e' = config e
  /\ buy_pressure e' = buy_pressure e * 0.9
  /\ sell_pressure e' = sell_pressure e * 0.9
  /\ circulating_supply e' = circulating_supply e
  /\ total_supply e' = total_supply e
  /\ length (price_history e') = S (length (price_history e)).
Proof.
  unfold calculate_price. cbn [snd config buy_pressure sell_pressure
    circulating_supply total_supply price_history].
  repeat split. rewrite length_app. simpl. lia.
Qed.

(** X18. Without new pressure added, [n] successive price calculations
    leave [0.9^n] of each pressure (so both fade geometrically), record
    [n] more prices in the history and change neither the supply nor the
    configuration. *)
Theorem pressure_fades_geometrically (e : t) (timestamps : list Q) :
  let e' := recalculate e timestamps in
  let n := Z.of_nat (length timestamps) in
  buy_pressure e' == buy_pressure e * 0.9 ^ n
  /\ sell_pressure e' == sell_pressure e * 0.9 ^ n
  /\ length (price_history e')
     = (length (price_history e) + length timestamps)%nat
  /\ circulating_supply e' = circulating_supply e
  /\ config e' = config e.
Proof.
  revert e. induction timestamps as [| ts tss IH]; intros e; cbv zeta.
  - simpl. repeat split; try lra. lia.
  - unfold recalculate. cbn [fold_left length].
    fold (recalculate (snd (calculate_price e ts)) tss).
    specialize (IH (snd (calculate_price e ts))). cbv zeta in IH.
    destruct (calculate_price_fields e ts)
      as (Hcfg & Hbuy & Hsell & Hcirc & _ & Hlen).
    cbv zeta in Hcfg, Hbuy, Hsell, Hcirc, Hlen.
    rewrite Hcfg, Hbuy, Hsell, Hcirc, Hlen in IH.
    destruct IH as (Hb & Hs & Hl & Hc & Hk).
    assert (Hpow : 0.9 ^ Z.of_nat (S (length tss))
                   == 0.9 * 0.9 ^ Z.of_nat (length tss)).
    { rewrite Nat2Z.inj_succ. unfold Z.succ.
      rewrite Qpower_plus by (intros Hz; discriminate Hz).
      change (0.9 ^ 1) with 0.9. ring. }
    split; [rewrite Hb, Hpow; ring |].
    split; [rewrite Hs, Hpow; ring |].
    split; [rewrite Hl; lia |]. split; assumption.
Qed.


End TokenomicsMore.

(* ===================================================================== *)
(** ** Further properties of the transaction generator *)
(* ===================================================================== *)

Section GeneratorMore.
Context `{PyFloat}.
Import TransactionGenerator.
Local Open Scope Q_scope.

Lemma generate_address_shape (prefix : string) (r1 r2 : Q) :
  is_generated (_generate_address prefix r1 r2).
Proof.
  unfold is_generated, _generate_address. split; [eauto |].
  rewrite append_length, substring_prefix_length; [reflexivity |].
  rewrite hexdigest_length. lia.
Qed.

Lemma is_generated_not_SYSTEM (a : string) :
  is_generated a -> a <> "SYSTEM"%string.
Proof. intros [[rest ->] _]. discriminate. Qed.

(** What [get_random_wallet] returns: a wallet other than the excluded
    one when there is one, a freshly generated address otherwise. *)
Lemma get_random_wallet_spec (g : t) (exclude : option string)
    (d : wallet_draw) :
  let w := get_random_wallet g exclude d in
  ((exists c, c ∈ wallets g /\ Some c <> exclude) ->
     w ∈ wallets g /\ Some w <> exclude)
  /\ ((forall c, c ∈ wallets g -> Some c = exclude) ->
        w = _generate_address "NEW" (fresh1 d) (fresh2 d)).
Proof.
  unfold get_random_wallet.
  destruct (filter (fun w => Some w <> exclude) (wallets g))
    as [| c0 cs] eqn:Hf.
  - split; [| reflexivity].
    intros (c & Hc & Hne). exfalso.
    assert (Hin : c ∈ filter (fun w => Some w <> exclude) (wallets g))
      by (apply list_elem_of_filter; auto).
    rewrite Hf in Hin. inversion Hin.
  - assert (Hin : nth (choice d mod length (c0 :: cs)) (c0 :: cs) c0
                  ∈ filter (fun w => Some w <> exclude) (wallets g)).
    { rewrite Hf. apply list_elem_of_In. apply nth_In.
      apply Nat.mod_upper_bound. discriminate. }
    apply list_elem_of_filter in Hin. destruct Hin as [Hne Hw].
    split; [intros _; split; assumption |].
    intros Hall. exfalso. apply Hne. apply Hall. exact Hw.
Qed.

Lemma get_random_wallet_generated (g : t) exclude d :
  Forall is_generated (wallets g) ->
  is_generated (get_random_wallet g exclude d).
Proof.
  intros Hall. unfold get_random_wallet.
  destruct (filter (fun w => Some w <> exclude) (wallets g))
    as [| c0 cs] eqn:Hf; [apply generate_address_shape |].
  assert (Hin : nth (choice d mod length (c0 :: cs)) (c0 :: cs) c0
                ∈ filter (fun w => Some w <> exclude) (wallets g)).
  { rewrite Hf. apply list_elem_of_In. apply nth_In.
    apply Nat.mod_upper_bound. discriminate. }
  apply list_elem_of_filter in Hin. destruct Hin as [_ Hw].
  rewrite Forall_forall in Hall. apply Hall. exact Hw.
Qed.

Lemma initialize_wallets_fields (g : t) count initial_supply rnd :
  let res := initialize_wallets g count initial_supply rnd in
  wallets (snd res)
  = map (fun i =>
           _generate_address ("W" +:+ str_of_Z (Z.of_nat i))
                             (rnd (2 * i)%nat) (rnd (2 * i + 1)%nat))
        (seq 0 count)
  /\ wallet_balances (snd res) = fst res
  /\ exchange_address (snd res) = exchange_address g
  /\ treasury_address (snd res) = treasury_address g
  /\ min_amount (snd res) = min_amount g
  /\ max_amount (snd res) = max_amount g
  /\ whale_threshold (snd res) = whale_threshold g.
Proof.
  unfold initialize_wallets.
  destruct (fold_left _ _ _) as [[distribution remaining] k].
  cbn [fst snd wallets wallet_balances exchange_address treasury_address
       min_amount max_amount whale_threshold].
  repeat split.
Qed.

(** The addresses of every generator state are generated ones, and the
    amount parameters are the ones the constructor set. *)
Lemma generator_reachable_invariant (g : t) :
  generator_reachable g ->
  is_generated (exchange_address g)
  /\ is_generated (treasury_address g)
  /\ Forall is_generated (wallets g)
  /\ min_amount g = 1 /\ max_amount g = 10000 /\ whale_threshold g = 0.1.
Proof.
  induction 1 as [r1 r2 r3 r4 | g count supply rnd _ IH | g a amt b _ IH].
  - simpl.
    split; [apply generate_address_shape |].
    split; [apply generate_address_shape |].
    split; [constructor |]. repeat split.
  - destruct (initialize_wallets_fields g count supply rnd)
      as (Hw & _ & He & Ht & Hmin & Hmax & Hwh).
    cbv zeta in *. rewrite Hw, He, Ht, Hmin, Hmax, Hwh.
    destruct IH as (IHe & IHt & _ & IHrest).
    split; [exact IHe |]. split; [exact IHt |]. split; [| exact IHrest].
    apply Forall_forall. intros a Ha. apply list_elem_of_In in Ha.
    apply in_map_iff in Ha. destruct Ha as (i & <- & _).
    apply generate_address_shape.
  - exact IH.
Qed.

Lemma generate_transaction_generated (g : t) (d : draws) :
  generator_reachable g ->
  is_generated (from_address (generate_transaction g d))
  /\ is_generated (to_address (generate_transaction g d)).
Proof.
  intros Hreach.
  destruct (generator_reachable_invariant g Hreach) as (He & _ & Hw & _).
  unfold generate_transaction.
  destruct (Qltb (rand_type d) (buy_probability g)).
  - cbn [from_address to_address].
    split; [exact He | apply get_random_wallet_generated; exact Hw].
  - destruct (Qltb (rand_type d) (buy_probability g + sell_probability g));
      cbn [from_address to_address].
    + split; [apply get_random_wallet_generated; exact Hw | exact He].
    + split; apply get_random_wallet_generated; exact Hw.
Qed.

(** X20. Whatever the draws, the two addresses of a generated transaction
    are generated addresses (["0x"] and 40 more characters): wallets of the
    population, the exchange address or a fresh address, and never
    ["SYSTEM"].  The ledger therefore applies its balance test to every
    generated transaction. *)
Theorem generated_addresses_are_wallets (g : t) (d : draws) :
  generator_reachable g ->
  let tx := generate_transaction g d in
  is_generated (from_address tx) /\ is_generated (to_address tx)
  /\ from_address tx <> "SYSTEM"%string
  /\ to_address tx <> "SYSTEM"%string.
Proof.
  intros Hreach tx.
  destruct (generate_transaction_generated g d Hreach) as [Hf Ht].
  split; [exact Hf |]. split; [exact Ht |].
  split; apply is_generated_not_SYSTEM; assumption.
Qed.

(** X21. The type of a generated transaction follows the first draw
    against the thresholds [buy_probability] and
    [buy_probability + sell_probability], and the type routes it: a buy
    leaves the exchange address, a sell arrives at it, and a transfer goes
    from a wallet to another wallet of the population, never to its own
    sender, as long as the population holds a wallet other than the
    sender. *)
Theorem generated_transaction_routing (g : t) (d : draws) :
  let tx := generate_transaction g d in
  (tx_type tx = BUY <-> rand_type d < buy_probability g)
  /\ (tx_type tx = SELL <->
        buy_probability g <= rand_type d
        /\ rand_type d < buy_probability g + sell_probability g)
  /\ (tx_type tx = BUY ->
        from_address tx = exchange_address g
        /\ (wallets g <> [] -> to_address tx ∈ wallets g))
  /\ (tx_type tx = SELL ->
        to_address tx = exchange_address g
        /\ (wallets g <> [] -> from_address tx ∈ wallets g))
  /\ (tx_type tx = TRANSFER ->
        (wallets g <> [] -> from_address tx ∈ wallets g)
        /\ ((exists w, w ∈ wallets g /\ w <> from_address tx) ->
              to_address tx ∈ wallets g
              /\ to_address tx <> from_address tx)).
Proof.
  intros tx.
  assert (Hany : forall dr, wallets g <> [] ->
                   get_random_wallet g None dr ∈ wallets g).
  { intros dr Hne.
    destruct (get_random_wallet_spec g None dr) as [Hsome _].
    apply Hsome. destruct (wallets g) as [| w ws]; [congruence |].
    exists w. split; [left | discriminate]. }
  unfold tx, generate_transaction.
  case_Qltb (rand_type d) (buy_probability g) Ebuy.
  - cbn [tx_type from_address to_address].
    split; [tauto |]. split; [split; [discriminate | lra] |].
    split; [intros _; split; [reflexivity | apply Hany] |].
    split; discriminate.
  - case_Qltb (rand_type d) (buy_probability g + sell_probability g) Esell;
      cbn [tx_type from_address to_address].
    + split; [split; [discriminate | lra] |].
      split; [tauto |]. split; [discriminate |].
      split; [intros _; split; [reflexivity | apply Hany] |].
      discriminate.
    + split; [split; [discriminate | lra] |].
      split; [split; [discriminate | lra] |].
      split; [discriminate |]. split; [discriminate |].
      intros _. split; [apply Hany |].
      intros (w & Hw & Hne).
      destruct (get_random_wallet_spec g
                  (Some (get_random_wallet g None (draw_first d)))
                  (draw_second d)) as [Hsome _].
      destruct Hsome as [Hin Hdiff].
      { exists w. split; [exact Hw | congruence]. }
      split; [exact Hin | congruence].
Qed.

Lemma sample_amount_ge_1 (g : t) (d : draws) :
  min_amount g == 1 -> max_amount g == 10000 ->
  0 <= rand_amount d -> rand_amount d < 1 ->
  1 <= sample_amount g d.
Proof.
  intros Hmin Hmax Hu0 Hu1. unfold sample_amount.
  destruct (Qltb (rand_whale d) (whale_threshold g)).
  - destruct (uniform_range (max_amount g * 0.5) (max_amount g)
                (rand_amount d)); lra.
  - destruct (uniform_range (min_amount g) (max_amount g * 0.1)
                (rand_amount d)); lra.
Qed.

(** X22. [generate_batch] returns one transaction per call, in order, and
    for a generator in any of its states and draws of [random.random()] in
    [0, 1) every transaction of the batch has an amount of at least 1 and
    at most 10000, with at most two decimals. *)
Theorem generate_batch_amounts (g : t) (ds : list draws) :
  generator_reachable g ->
  Forall (fun d => 0 <= rand_amount d /\ rand_amount d < 1) ds ->
  length (generate_batch g ds) = length ds
  /\ Forall (fun tx => 1 <= amount tx <= 10000
                       /\ exists cents : Z, amount tx == inject_Z cents / 100)
            (generate_batch g ds).
Proof.
  intros Hreach Hds.
  destruct (generator_reachable_invariant g Hreach)
    as (_ & _ & _ & Hmin & Hmax & _).
  unfold generate_batch. split; [apply length_map |].
  apply Forall_forall. intros tx Htx. apply list_elem_of_In in Htx.
  apply in_map_iff in Htx. destruct Htx as (d & <- & Hd).
  rewrite Forall_forall in Hds.
  destruct (Hds d (proj2 (list_elem_of_In _ _) Hd)) as [Hu0 Hu1].
  rewrite generate_transaction_amount.
  assert (Hs1 : 1 <= sample_amount g d)
    by (apply sample_amount_ge_1; [rewrite Hmin | rewrite Hmax | |];
        auto; reflexivity).
  assert (Hs2 : sample_amount g d <= 10000).
  { unfold sample_amount. rewrite Hmin, Hmax.
    destruct (Qltb (rand_whale d) (whale_threshold g)).
    - destruct (uniform_range (10000 * 0.5) 10000 (rand_amount d)); lra.
    - destruct (uniform_range 1 (10000 * 0.1) (rand_amount d)); lra. }
  split; [split |].
  - apply py_round_2_ge_1. exact Hs1.
  - unfold py_round. change (inject_Z (10 ^ Z.of_nat 2)) with 100.
    destruct (round_half_even_near (sample_amount g d * 100))
      as (Hlo & Hhi & _).
    assert (Hfl : (round_half_even (sample_amount g d * 100)
                   <= 1000000)%Z).
    { destruct (Z_le_gt_dec (round_half_even (sample_amount g d * 100))
                  1000000%Z) as [Hle | Hgt]; [exact Hle |].
      exfalso.
      assert (Hq : inject_Z 1000001
                   <= inject_Z (round_half_even (sample_amount g d * 100)))
        by (rewrite <- Zle_Qle; lia).
      change (inject_Z 1000001) with 1000001 in Hq. lra. }
    apply Qle_shift_div_r; [reflexivity |].
    rewrite Zle_Qle in Hfl.
    change (inject_Z 1000000) with 1000000 in Hfl. lra.
  - exists (round_half_even (sample_amount g d * 100)).
    unfold py_round. change (inject_Z (10 ^ Z.of_nat 2)) with 100.
    reflexivity.
Qed.

End GeneratorMore.

(* ===================================================================== *)
(** ** The wallet population *)
(* ===================================================================== *)

Section WalletsMore.
Context `{PyFloat}.
Import TransactionGenerator.
Local Open Scope Q_scope.

Lemma whale_fold_dom (share : Q) (rnd : nat -> Q) (l : list string)
    (acc : gmap string Q * Q * nat) :
  dom (fst (fst (fold_left (whale_step share rnd) l acc)))
  = dom (fst (fst acc)) ∪ list_to_set l.
Proof.
  revert acc. induction l as [| w l IH]; intros [[d0 rem] k].
  - simpl. rewrite union_empty_r_L. reflexivity.
  - cbn [fold_left]. rewrite IH. cbn [whale_step fst list_to_set].
    rewrite dom_insert_L, (comm_L (∪) {[w]} (dom d0)), <- (assoc_L (∪)).
    reflexivity.
Qed.

Lemma whale_fold_nonneg (share : Q) (rnd : nat -> Q) (l : list string)
    (acc : gmap string Q * Q * nat) :
  0 <= share -> (forall k, 0 <= rnd k) ->
  balances_nonneg (fst (fst acc)) ->
  balances_nonneg (fst (fst (fold_left (whale_step share rnd) l acc))).
Proof.
  intros Hs Hr. revert acc.
  induction l as [| w l IH]; intros [[d0 rem] k] Hacc; [exact Hacc |].
  cbn [fold_left]. apply IH. cbn [whale_step fst].
  apply map_Forall_insert_2; [| exact Hacc].
  apply Qmult_le_0_compat; [exact Hs |]. specialize (Hr k). lra.
Qed.

Lemma regular_fold_dom (share : Q) (rnd : nat -> Q) (l : list string)
    (acc : gmap string Q * nat) :
  dom (fst (fold_left (regular_step share rnd) l acc))
  = dom (fst acc) ∪ list_to_set l.
Proof.
  revert acc. induction l as [| w l IH]; intros [d0 k].
  - simpl. rewrite union_empty_r_L. reflexivity.
  - cbn [fold_left]. rewrite IH. cbn [regular_step fst list_to_set].
    rewrite dom_insert_L, (comm_L (∪) {[w]} (dom d0)), <- (assoc_L (∪)).
    reflexivity.
Qed.

Lemma regular_fold_nonneg (share : Q) (rnd : nat -> Q) (l : list string)
    (acc : gmap string Q * nat) :
  balances_nonneg (fst acc) ->
  balances_nonneg (fst (fold_left (regular_step share rnd) l acc)).
Proof.
  revert acc.
  induction l as [| w l IH]; intros [d0 k] Hacc; [exact Hacc |].
  cbn [fold_left]. apply IH. cbn [regular_step fst].
  apply map_Forall_insert_2; [| exact Hacc]. apply py_max_spec.
Qed.

(** X23. [initialize_wallets] creates [count] wallets, all with generated
    addresses, and returns a distribution whose entries are exactly these
    wallets, the exchange and the treasury.  The treasury holds 5% of the
    supply, the exchange 10% (when its address differs from the
    treasury's), and for a supply and draws that are not negative no entry
    is negative; the distribution becomes [wallet_balances]. *)
Theorem initialize_wallets_distribution (g : t) (count : nat)
    (initial_supply : Q) (rnd : nat -> Q) :
  let res := initialize_wallets g count initial_supply rnd in
  length (wallets (snd res)) = count
  /\ Forall is_generated (wallets (snd res))
  /\ wallet_balances (snd res) = fst res
  /\ dom (fst res)
     = list_to_set (wallets (snd res))
       ∪ {[exchange_address g; treasury_address g]}
  /\ fst res !! treasury_address g = Some (initial_supply * 0.05)
  /\ (exchange_address g <> treasury_address g ->
        fst res !! exchange_address g = Some (initial_supply * 0.1))
  /\ (0 <= initial_supply -> (forall k, 0 <= rnd k) ->
        balances_nonneg (fst res)).
Proof.
  intros res.
  destruct (initialize_wallets_fields g count initial_supply rnd)
    as (Hw & Hb & _).
  fold res in Hw, Hb.
  split; [rewrite Hw, length_map, length_seq; reflexivity |].
  split.
  { rewrite Hw. apply Forall_forall. intros a Ha.
    apply list_elem_of_In in Ha. apply in_map_iff in Ha.
    destruct Ha as (i & <- & _). apply generate_address_shape. }
  split; [exact Hb |].
  rewrite Hw. clear Hw Hb. unfold res, initialize_wallets.
  set (ws := map _ (seq 0 count)).
  set (whale_count := Nat.max 1 (count / 10)).
  set (share := initial_supply * 0.6 / inject_Z (Z.of_nat whale_count)).
  pose proof (whale_fold_dom share rnd (take whale_count ws)
                (∅, initial_supply, (2 * count)%nat)) as Hdom1.
  pose proof (whale_fold_nonneg share rnd (take whale_count ws)
                (∅, initial_supply, (2 * count)%nat)) as Hnn1.
  destruct (fold_left (whale_step share rnd) (take whale_count ws)
              (∅, initial_supply, (2 * count)%nat))
    as [[d1 remaining] k].
  cbn [fst] in Hdom1, Hnn1. rewrite dom_empty_L, union_empty_l_L in Hdom1.
  set (d2 := match drop whale_count ws with
             | [] => d1
             | _ :: _ =>
                 fst (fold_left
                        (regular_step
                           (remaining
                            / inject_Z (Z.of_nat
                                          (length (drop whale_count ws))))
                           rnd)
                        (drop whale_count ws) (d1, k))
             end).
  assert (Hdom2 : dom d2 = dom d1 ∪ list_to_set (drop whale_count ws)).
  { unfold d2. destruct (drop whale_count ws) as [| w l] eqn:Hd.
    - simpl. rewrite union_empty_r_L. reflexivity.
    - rewrite regular_fold_dom. reflexivity. }
  assert (Hnn2 : balances_nonneg d1 -> balances_nonneg d2).
  { intros Hd1. unfold d2. destruct (drop whale_count ws) as [| w l] eqn:Hd;
      [exact Hd1 |]. apply regular_fold_nonneg. exact Hd1. }
  cbn [fst snd].
  split.
  { rewrite !dom_insert_L, Hdom2, Hdom1.
    rewrite <- (take_drop whale_count ws) at 3.
    rewrite list_to_set_app_L.
    set (A := list_to_set (take whale_count ws) : gset string).
    set (B := list_to_set (drop whale_count ws) : gset string).
    apply set_eq. intros x.
    rewrite !elem_of_union, !elem_of_singleton. tauto. }
  split; [apply lookup_insert_eq |].
  split.
  { intros Hne. rewrite lookup_insert_ne by congruence.
    apply lookup_insert_eq. }
  intros Hs Hr.
  assert (Hshare : 0 <= share).
  { unfold share. apply Qle_shift_div_l; [| lra].
    change 0 with (inject_Z 0). rewrite <- Zlt_Qlt. unfold whale_count. lia. }
  apply map_Forall_insert_2; [lra |].
  apply map_Forall_insert_2; [lra |].
  apply Hnn2, Hnn1; [exact Hshare | exact Hr | apply map_Forall_empty].
Qed.



End WalletsMore.

(* ===================================================================== *)
(** ** The simulation loop *)
(* ===================================================================== *)

Section SimulationState.
Import Simulation.
Local Open Scope Q_scope.


(** X26. [get_intensity_params] knows three names and falls back on the
    medium preset for every other string; every result has a volatility
    in (0, 0.1] and between 2 and 10 transactions per second, so the tick
    interval [1 / tx_per_second] is defined and lies in [0.1, 0.5]. *)
Theorem intensity_params_fallback (intensity : string) :
  let params := get_intensity_params intensity in
  (intensity = "low"%string -> params = (2%Z, 0.02))
  /\ (intensity = "high"%string -> params = (10%Z, 0.10))
  /\ (intensity <> "low"%string -> intensity <> "high"%string ->
        params = (5%Z, 0.05))
  /\ (2 <= fst params <= 10)%Z
  /\ 0 < snd params <= 0.1
  /\ 0.1 <= 1 / inject_Z (fst params) <= 0.5.
Proof.
  unfold get_intensity_params, intensity_table. cbn [dict_get].
  destruct (String.eqb_spec "low" intensity) as [<- | Hlow].
  { cbn [fst snd]. repeat split; try discriminate; try lia; try reflexivity;
      try (intros; congruence). }
  destruct (String.eqb_spec "medium" intensity) as [<- | Hmed].
  { cbn [fst snd]. repeat split; try discriminate; try lia; try reflexivity;
      try (intros; congruence). }
  destruct (String.eqb_spec "high" intensity) as [<- | Hhigh].
  { cbn [fst snd]. repeat split; try discriminate; try lia; try reflexivity;
      try (intros; congruence). }
  cbn [fst snd]. repeat split; try discriminate; try lia; try reflexivity;
    try (intros; congruence).
Qed.

End SimulationState.

Section Tick.
Context `{PyFloat}.
Import Simulation.
Local Open Scope Q_scope.


(** The two ways the block-creation branch can go. *)
Lemma seal_and_reward_cases (bc : BlockchainSimulator.t)
    (tk : TokenomicsEngine.t) (st : SimulationState) (c : clocks)
    bc' tk' st' :
  seal_and_reward bc tk st c = Some (bc', tk', st') ->
  (BlockchainSimulator.should_create_block bc (now_poll c) = false
   /\ bc' = bc /\ tk' = tk /\ st' = st)
  \/ (BlockchainSimulator.should_create_block bc (now_poll c) = true
      /\ exists block bc1,
           BlockchainSimulator.create_block bc (now_block c) (now_last c)
           = Some (block, bc1)
           /\ tk' = snd (TokenomicsEngine.apply_block_reward tk "MINER")
           /\ bc' = (if Qltb 0 (fst (TokenomicsEngine.apply_block_reward
                                       tk "MINER"))
                     then snd (BlockchainSimulator.add_transaction
                                 bc1 "SYSTEM" "MINER"
                                 (fst (TokenomicsEngine.apply_block_reward
                                         tk "MINER"))
                                 (now_reward c))
                     else bc1)
           /\ st' = mk_state (status st) (duration_seconds st)
                      (elapsed_seconds st) (transactions_generated st)
                      (S (blocks_created st)) (current_price st)
                      (price_history st) (holders_count st)).
Proof.
  unfold seal_and_reward.
  destruct (BlockchainSimulator.should_create_block bc (now_poll c)).
  - destruct (BlockchainSimulator.create_block bc (now_block c) (now_last c))
      as [[block bc1] |]; [| discriminate].
    destruct (TokenomicsEngine.apply_block_reward tk "MINER") as [r tk1].
    intros Heq. injection Heq as <- <- <-.
    right. split; [reflexivity |]. exists block, bc1. auto.
  - intros Heq. injection Heq as <- <- <-. left. auto.
Qed.

(** One iteration of the loop, taken apart. *)
Lemma tick_cases (w : world) (start_time : Q) (c : clocks)
    (d : TransactionGenerator.draws) (gauss : Q) (w' : world) :
  tick w start_time c d gauss = Some w' ->
  let gen_tx := TransactionGenerator.generate_transaction (tx_generator w) d in
  let res :=
    BlockchainSimulator.add_transaction (blockchain w)
      (TransactionGenerator.from_address gen_tx)
      (TransactionGenerator.to_address gen_tx)
      (TransactionGenerator.amount gen_tx) (now_tx c) in
  let tk1 :=
    match fst res with
    | Some _ =>
        match TransactionGenerator.tx_type gen_tx with
        | TransactionGenerator.BUY =>
            TokenomicsEngine.add_buy_pressure
              (tokenomics w) (TransactionGenerator.amount gen_tx)
        | TransactionGenerator.SELL =>
            TokenomicsEngine.add_sell_pressure
              (tokenomics w) (TransactionGenerator.amount gen_tx)
        | TransactionGenerator.TRANSFER => tokenomics w
        end
    | None => tokenomics w
    end in
  let tk2 := snd (TokenomicsEngine.calculate_price tk1 (current_time c)) in
  let ps1 :=
    snd (PriceSimulator.add_market_impact (price_sim w)
           (TokenomicsEngine.buy_pressure tk2)
           (TokenomicsEngine.sell_pressure tk2)
           (TokenomicsEngine.circulating_supply tk2)) in
  let pr :=
    PriceSimulator.update_price ps1 (Some (current_time c)) (current_time c)
                                gauss in
  let st2 :=
    mk_state (status (sim_state w)) (duration_seconds (sim_state w))
             (current_time c - start_time)
             (match fst res with
              | Some _ => S (transactions_generated (sim_state w))
              | None => transactions_generated (sim_state w)
              end)
             (blocks_created (sim_state w)) (fst pr)
             (price_history (sim_state w) ++ [(current_time c, fst pr)])
             (holders_count (sim_state w)) in
  exists bc3 tk3 st3,
    seal_and_reward (snd res) tk2 st2 c = Some (bc3, tk3, st3)
    /\ w' = mk_world bc3 tk3 (tx_generator w) (snd pr)
              (mk_state (status st3) (duration_seconds st3)
                 (elapsed_seconds st3) (transactions_generated st3)
                 (blocks_created st3) (current_price st3) (price_history st3)
                 (TransactionGenerator.get_holder_count (tx_generator w))).
Proof.
  intros Ht. cbv zeta. unfold tick in Ht.
  destruct (BlockchainSimulator.add_transaction _ _ _ _ _) as [tx bc] eqn:Hadd.
  cbn [fst snd].
  destruct tx as [r |].
  - cbn [status duration_seconds elapsed_seconds transactions_generated
         blocks_created current_price price_history holders_count] in Ht.
    destruct (PriceSimulator.update_price _ _ _ _) as [new_price ps] eqn:Hup
      in Ht.
    rewrite Hup. cbn [fst snd].
    destruct (seal_and_reward _ _ _ _) as [[[bc3 tk3] st3] |] eqn:Hseal;
      [| discriminate].
    injection Ht as <-. exists bc3, tk3, st3. split; reflexivity.
  - cbn [status duration_seconds elapsed_seconds transactions_generated
         blocks_created current_price price_history holders_count] in Ht.
    destruct (PriceSimulator.update_price _ _ _ _) as [new_price ps] eqn:Hup
      in Ht.
    rewrite Hup. cbn [fst snd].
    destruct (seal_and_reward _ _ _ _) as [[[bc3 tk3] st3] |] eqn:Hseal;
      [| discriminate].
    injection Ht as <-. exists bc3, tk3, st3. split; reflexivity.
Qed.

End Tick.

Section TickMore.
Context `{PyFloat}.
Import Simulation.
Local Open Scope Q_scope.


Lemma create_block_succeeds (s : BlockchainSimulator.t) now_block now_last :
  BlockchainSimulator.get_chain s <> [] ->
  exists block s',
    BlockchainSimulator.create_block s now_block now_last = Some (block, s').
Proof.
  intros Hne.
  destruct (BlockchainSimulator.create_block s now_block now_last)
    as [[block s'] |] eqn:Hcb; [eauto |].
  exfalso. revert Hcb.
  unfold BlockchainSimulator.create_block, Blockchain.create_block,
    Blockchain.get_latest_block.
  fold (BlockchainSimulator.get_chain s).
  destruct (last (BlockchainSimulator.get_chain s)) eqn:Hlast;
    [discriminate |].
  apply last_None in Hlast. congruence.
Qed.



(** X28. One iteration of the loop records the elapsed time, counts the
    generated transaction exactly when the ledger accepted it, and counts
    a block exactly when one was appended to the chain.  After an
    iteration that sealed a block the pending queue holds at most the
    reward transaction.  The loop never writes to the generator, so the
    holder count it reports is that of the untouched wallet balances. *)
Theorem tick_bookkeeping (w : world) (start_time : Q) (c : clocks)
    (d : TransactionGenerator.draws) (gauss : Q) (w' : world) :
  tick w start_time c d gauss = Some w' ->
  let gen_tx := TransactionGenerator.generate_transaction (tx_generator w) d in
  let res :=
    BlockchainSimulator.add_transaction (blockchain w)
      (TransactionGenerator.from_address gen_tx)
      (TransactionGenerator.to_address gen_tx)
      (TransactionGenerator.amount gen_tx) (now_tx c) in
  let sealed :=
    BlockchainSimulator.should_create_block (snd res) (now_poll c) in
  tx_generator w' = tx_generator w
  /\ holders_count (sim_state w')
     = TransactionGenerator.get_holder_count (tx_generator w)
  /\ elapsed_seconds (sim_state w') = current_time c - start_time
  /\ status (sim_state w') = status (sim_state w)
  /\ transactions_generated (sim_state w')
     = (transactions_generated (sim_state w)
        + match fst res with Some _ => 1 | None => 0 end)%nat
  /\ blocks_created (sim_state w')
     = (blocks_created (sim_state w) + if sealed then 1 else 0)%nat
  /\ length (BlockchainSimulator.get_chain (blockchain w'))
     = (length (BlockchainSimulator.get_chain (blockchain w))
        + if sealed then 1 else 0)%nat
  /\ (sealed = true ->
        (length (BlockchainSimulator.get_pending_transactions (blockchain w'))
         <= 1)%nat).
Proof.
  intros Ht gen_tx res sealed.
  destruct (tick_cases w start_time c d gauss w' Ht)
    as (bc3 & tk3 & st3 & Hseal & ->).
  fold gen_tx in Hseal. fold res in Hseal.
  cbn [tx_generator sim_state blockchain holders_count elapsed_seconds
       status transactions_generated blocks_created].
  assert (Hchain0 : BlockchainSimulator.get_chain (snd res)
                    = BlockchainSimulator.get_chain (blockchain w)).
  { destruct (add_transaction_store (blockchain w)
                (TransactionGenerator.from_address gen_tx)
                (TransactionGenerator.to_address gen_tx)
                (TransactionGenerator.amount gen_tx) (now_tx c))
      as [Heq | (Hc & _)]; fold res in Heq || fold res in Hc.
    - rewrite Heq. reflexivity.
    - exact Hc. }
  apply seal_and_reward_cases in Hseal. fold sealed in Hseal.
  destruct Hseal as [(Hs & -> & -> & ->)
                    | (Hs & block & bc1 & Hcb & -> & -> & ->)];
    rewrite Hs;
    cbn [status duration_seconds elapsed_seconds transactions_generated
         blocks_created].
  - split; [reflexivity |]. split; [reflexivity |]. split; [reflexivity |].
    split; [reflexivity |].
    split; [destruct (fst res); lia |].
    split; [lia |]. split; [rewrite Hchain0; lia | discriminate].
  - destruct (create_block_shape _ _ _ _ _ Hcb)
      as (latest & _ & _ & Hc & Hp & _).
    assert (Hfinal :
      let bc3 :=
        if Qltb 0 (fst (TokenomicsEngine.apply_block_reward
                          (snd (TokenomicsEngine.calculate_price
                                  match fst res with
                                  | Some _ =>
                                      match TransactionGenerator.tx_type gen_tx with
                                      | TransactionGenerator.BUY =>
                                          TokenomicsEngine.add_buy_pressure
                                            (tokenomics w)
                                            (TransactionGenerator.amount gen_tx)
                                      | TransactionGenerator.SELL =>
                                          TokenomicsEngine.add_sell_pressure
                                            (tokenomics w)
                                            (TransactionGenerator.amount gen_tx)
                                      | TransactionGenerator.TRANSFER =>
                                          tokenomics w
                                      end
                                  | None => tokenomics w
                                  end (current_time c))) "MINER"))
        then snd (BlockchainSimulator.add_transaction bc1 "SYSTEM" "MINER"
                    (fst (TokenomicsEngine.apply_block_reward
                            (snd (TokenomicsEngine.calculate_price
                                    match fst res with
                                    | Some _ =>
                                        match TransactionGenerator.tx_type gen_tx with
                                        | TransactionGenerator.BUY =>
                                            TokenomicsEngine.add_buy_pressure
                                              (tokenomics w)
                                              (TransactionGenerator.amount gen_tx)
                                        | TransactionGenerator.SELL =>
                                            TokenomicsEngine.add_sell_pressure
                                              (tokenomics w)
                                              (TransactionGenerator.amount gen_tx)
                                        | TransactionGenerator.TRANSFER =>
                                            tokenomics w
                                        end
                                    | None => tokenomics w
                                    end (current_time c))) "MINER"))
                    (now_reward c))
        else bc1 in
      BlockchainSimulator.get_chain bc3 = BlockchainSimulator.get_chain bc1
      /\ (length (BlockchainSimulator.get_pending_transactions bc3) <= 1)%nat).
    { cbv zeta. destruct (Qltb 0 _).
      - destruct (add_transaction_store bc1 "SYSTEM" "MINER"
                    (fst (TokenomicsEngine.apply_block_reward
                            (snd (TokenomicsEngine.calculate_price
                                    match fst res with
                                    | Some _ =>
                                        match TransactionGenerator.tx_type gen_tx with
                                        | TransactionGenerator.BUY =>
                                            TokenomicsEngine.add_buy_pressure
                                              (tokenomics w)
                                              (TransactionGenerator.amount gen_tx)
                                        | TransactionGenerator.SELL =>
                                            TokenomicsEngine.add_sell_pressure
                                              (tokenomics w)
                                              (TransactionGenerator.amount gen_tx)
                                        | TransactionGenerator.TRANSFER =>
                                            tokenomics w
                                        end
                                    | None => tokenomics w
                                    end (current_time c))) "MINER"))
                    (now_reward c))
          as [Heq | (Hc' & Hp' & _)].
        + rewrite Heq, Hp. simpl. split; [reflexivity | lia].
        + rewrite Hc', Hp', Hp. simpl. split; [reflexivity | lia].
      - rewrite Hp. simpl. split; [reflexivity | lia]. }
    cbv zeta in Hfinal. destruct Hfinal as [Hc3 Hp3].
    split; [reflexivity |]. split; [reflexivity |]. split; [reflexivity |].
    split; [reflexivity |].
    split; [destruct (fst res); lia |].
    split; [lia |].
    split; [| intros _; exact Hp3].
    rewrite Hc3, Hc, length_app, Hchain0. simpl. lia.
Qed.

(** X29. After one iteration of the loop the price shown by the
    simulation state is the current price of the price process and is at
    least the floor 0.0001; both histories end with that price at the
    loop's clock reading, and the price process saw exactly one update. *)
Theorem tick_publishes_price (w : world) (start_time : Q) (c : clocks)
    (d : TransactionGenerator.draws) (gauss : Q) (w' : world) :
  tick w start_time c d gauss = Some w' ->
  current_price (sim_state w') = PriceSimulator.current_price (price_sim w')
  /\ PriceSimulator.floor_price <= current_price (sim_state w')
  /\ price_history (sim_state w')
     = price_history (sim_state w)
       ++ [(current_time c, current_price (sim_state w'))]
  /\ PriceSimulator.price_history (price_sim w')
     = PriceSimulator.price_history (price_sim w)
       ++ [(current_time c, current_price (sim_state w'))]
  /\ PriceSimulator.volatility (price_sim w')
     = PriceSimulator.volatility (price_sim w).
Proof.
  intros Ht.
  destruct (tick_cases w start_time c d gauss w' Ht)
    as (bc3 & tk3 & st3 & Hseal & ->).
  cbn [sim_state price_sim current_price price_history].
  apply seal_and_reward_cases in Hseal.
  match type of Hseal with
  | context [PriceSimulator.update_price ?ps ?ts ?now ?gs] =>
      set (ps1 := ps) in *;
      pose proof (update_price_fst ps1 ts now gs) as Hfst;
      pose proof (py_max_spec PriceSimulator.floor_price
                    (PriceSimulator.current_price ps1
                     * (1 + PriceSimulator.change_factor ps1 gs))) as Hspec
  end.
  rewrite <- Hfst in Hspec. destruct Hspec as (Hfloor & _).
  assert (Hps1 : PriceSimulator.price_history ps1
                 = PriceSimulator.price_history (price_sim w)
                 /\ PriceSimulator.volatility ps1
                    = PriceSimulator.volatility (price_sim w)).
  { unfold ps1, PriceSimulator.add_market_impact.
    destruct (Qeq_bool _ 0); split; reflexivity. }
  destruct Hps1 as [Hh1 Hv1].
  destruct Hseal as [(_ & _ & _ & ->) | (_ & block & bc1 & _ & _ & _ & ->)];
    cbn [current_price price_history];
    (split; [reflexivity |]); (split; [exact Hfloor |]);
    (split; [reflexivity |]);
    (split; [cbn [snd PriceSimulator.update_price
                  PriceSimulator.price_history PriceSimulator.volatility];
             rewrite ?Hh1, ?Hv1; reflexivity |]);
    cbn [snd PriceSimulator.update_price PriceSimulator.volatility];
    exact Hv1.
Qed.

(** On a simulator state the body of the loop returns a world. *)
Lemma tick_on_reachable (w : world) (start_time : Q) (c : clocks)
    (d : TransactionGenerator.draws) (gauss : Q) :
  reachable (blockchain w) ->
  exists w', tick w start_time c d gauss = Some w'.
Proof.
  intros Hreach.
  assert (Hseal : forall bc tk st, reachable bc ->
            exists out, seal_and_reward bc tk st c = Some out).
  { intros bc tk st Hbc. unfold seal_and_reward.
    destruct (BlockchainSimulator.should_create_block bc (now_poll c));
      [| eauto].
    destruct (reachable_well_formed bc Hbc) as (Hne & _).
    destruct (create_block_succeeds bc (now_block c) (now_last c) Hne)
      as (block & bc1 & Hcb).
    rewrite Hcb.
    destruct (TokenomicsEngine.apply_block_reward tk "MINER") as [r tk1].
    eauto. }
  unfold tick.
  destruct (BlockchainSimulator.add_transaction (blockchain w) _ _ _ _)
    as [tx bc] eqn:Hadd.
  assert (Hbc : reachable bc).
  { replace bc with (snd (BlockchainSimulator.add_transaction (blockchain w)
        (TransactionGenerator.from_address
           (TransactionGenerator.generate_transaction (tx_generator w) d))
        (TransactionGenerator.to_address
           (TransactionGenerator.generate_transaction (tx_generator w) d))
        (TransactionGenerator.amount
           (TransactionGenerator.generate_transaction (tx_generator w) d))
        (now_tx c))) by (rewrite Hadd; reflexivity).
    apply reach_add_transaction. exact Hreach. }
  destruct tx as [r |];
    destruct (PriceSimulator.update_price _ _ _ _) as [new_price ps];
    match goal with
    | |- context [seal_and_reward bc ?tk ?st c] =>
        destruct (Hseal bc tk st Hbc) as ([[bc' tk'] st'] & ->)
    end; eauto.
Qed.

(** X30. On a simulator state the body of the loop never raises: the
    chain always holds the genesis block, so sealing a block finds a last
    block, and the state of the ledger after the iteration is again a
    state of the simulator; the price process after the iteration is a
    state of the price process. *)
Theorem tick_never_raises (w : world) (start_time : Q) (c : clocks)
    (d : TransactionGenerator.draws) (gauss : Q) :
  reachable (blockchain w) ->
  exists w',
    tick w start_time c d gauss = Some w'
    /\ reachable (blockchain w')
    /\ (price_reachable (price_sim w) -> price_reachable (price_sim w')).
Proof.
  intros Hreach.
  destruct (tick_on_reachable w start_time c d gauss Hreach) as [w' Ht].
  exists w'. split; [exact Ht |].
  destruct (tick_cases w start_time c d gauss w' Ht)
    as (bc3 & tk3 & st3 & Hseal & ->).
  cbn [blockchain price_sim].
  split; [| intros Hp; apply price_update, price_impact; exact Hp].
  apply seal_and_reward_cases in Hseal.
  destruct Hseal as [(_ & -> & _) | (_ & block & bc1 & Hcb & _ & -> & _)].
  - apply reach_add_transaction. exact Hreach.
  - assert (Hbc1 : reachable bc1).
    { eapply reach_create_block; [| exact Hcb].
      apply reach_add_transaction. exact Hreach. }
    destruct (Qltb 0 _); [apply reach_add_transaction |]; exact Hbc1.
Qed.

End TickMore.

(* ===================================================================== *)
(** ** The further properties at concrete inputs *)
(* ===================================================================== *)

Lemma scenario_s1_reachable : reachable Scenario.s1.
Proof. apply reach_add_transaction, reach_initialize, reach_init. Qed.

Lemma demo_sealed_reachable : reachable Demo.sealed.
Proof.
  unfold Demo.sealed. destruct Scenario.s2 as [[b s] |] eqn:E.
  - eapply reach_create_block; [apply scenario_s1_reachable | exact E].
  - apply scenario_s1_reachable.
Qed.

Lemma demo_generator_reachable : generator_reachable Demo.generator.
Proof. apply generator_wallets, generator_init. Qed.

Lemma demo_simulator_reachable : reachable Demo.simulator.
Proof. apply reach_initialize, reach_init. Qed.

Lemma demo_price_reachable :
  price_reachable
    (snd (PriceSimulator.update_price Demo.price None 1700000001 0.5)).
Proof. apply price_update, price_init. Qed.

Lemma add_transaction_keeps_nonneg_witness :
  balances_nonneg
    (BlockchainSimulator.ledger
       (snd (BlockchainSimulator.add_transaction
               Scenario.s0 "A" "B" 30 1700000001))).
Proof.
  apply add_transaction_keeps_nonneg.
  apply map_Forall_singleton. vm_compute. discriminate.
Defined.

Lemma accepted_transactions_accounted_witness :
  (BlockchainSimulator.get_total_transactions Demo.sealed
   + length (BlockchainSimulator.get_pending_transactions Demo.sealed)
   = length (BlockchainSimulator.objects Demo.sealed))%nat.
Proof.
  apply (accepted_transactions_accounted Demo.sealed demo_sealed_reachable).
Defined.

Lemma block_index_locates_transaction_witness :
  exists tx, BlockchainSimulator.objects Scenario.s1 !! 0%nat = Some tx
             /\ Transaction.block_index tx = None.
Proof.
  destruct (block_index_locates_transaction Scenario.s1 scenario_s1_reachable)
    as (_ & Hpending & _).
  apply Hpending. vm_compute. left.
Defined.

Lemma chain_is_linked_witness :
  exists g, BlockchainSimulator.get_chain Demo.sealed !! 0%nat = Some g
            /\ Block.index g = 0%nat
            /\ Block.previous_hash g = Blockchain.zero_hash
            /\ Block.transactions g = [].
Proof.
  apply (chain_is_linked Demo.sealed demo_sealed_reachable).
Defined.

Lemma demo_empty_sealed_reachable : reachable Demo.empty_sealed.
Proof.
  unfold Demo.empty_sealed. destruct Scenario.empty_block as [[b s] |] eqn:E.
  - eapply reach_create_block; [| exact E].
    apply reach_initialize, reach_init.
  - apply reach_initialize, reach_init.
Qed.

Lemma is_valid_iff_hashes_current_witness :
  BlockchainSimulator.is_valid Demo.empty_sealed = true.
Proof.
  destruct (is_valid_iff_hashes_current Demo.empty_sealed
              demo_empty_sealed_reachable) as [_ Hempty].
  apply Hempty. intros i b Hb.
  destruct i as [| [| i]]; vm_compute in Hb;
    [injection Hb as <-; reflexivity .. | discriminate Hb].
Defined.

Lemma tx_hash_stays_current_witness :
  exists tx, BlockchainSimulator.objects Demo.sealed !! 0%nat = Some tx
             /\ Transaction.block_index tx = Some 1%nat
             /\ Transaction.tx_hash tx = Transaction._generate_hash tx
             /\ String.length (Transaction.tx_hash tx) = 16%nat.
Proof.
  destruct (BlockchainSimulator.objects Demo.sealed !! 0%nat) as [tx |] eqn:E;
    [| vm_compute in E; discriminate E].
  exists tx. split; [reflexivity |].
  split; [vm_compute in E; injection E as <-; reflexivity |].
  exact (tx_hash_stays_current Demo.sealed demo_sealed_reachable 0%nat tx E).
Defined.

Lemma price_extremes_bracket_history_witness :
  let p := snd (PriceSimulator.update_price Demo.price None 1700000001 0.5) in
  (PriceSimulator.all_time_low p <= PriceSimulator.current_price p
   <= PriceSimulator.all_time_high p)%Q.
Proof.
  apply (price_extremes_bracket_history _ demo_price_reachable).
Defined.

Lemma price_change_against_initial_witness :
  let p := snd (PriceSimulator.update_price Demo.price None 1700000001 0.5) in
  PriceSimulator.get_price_change_24h p
  = ((PriceSimulator.current_price p - PriceSimulator.initial_price p)
     / PriceSimulator.initial_price p * 100)%Q.
Proof.
  destruct (price_change_against_initial _ demo_price_reachable)
    as [_ Htwo].
  destruct Htwo as [_ Hne]; [vm_compute; lia |].
  apply Hne. vm_compute. discriminate.
Defined.



Lemma calculate_price_follows_pressure_witness :
  let e := TokenomicsEngine.add_buy_pressure near_cap 100 in
  (TokenomicsEngine.current_price e
   <= fst (TokenomicsEngine.calculate_price e 1700000000))%Q.
Proof.
  destruct (calculate_price_follows_pressure
              (TokenomicsEngine.add_buy_pressure near_cap 100) 1700000000)
    as (Hup & _).
  - vm_compute. discriminate.
  - vm_compute. discriminate.
  - vm_compute. discriminate.
  - vm_compute. discriminate.
  - apply Hup; [reflexivity | vm_compute; discriminate].
Defined.


Lemma generated_addresses_are_wallets_witness :
  TransactionGenerator.from_address
    (TransactionGenerator.generate_transaction Demo.generator Demo.draws0)
  <> "SYSTEM"%string.
Proof.
  apply (generated_addresses_are_wallets Demo.generator Demo.draws0
           demo_generator_reachable).
Defined.

Lemma generate_batch_amounts_witness :
  length (TransactionGenerator.generate_batch Demo.generator
            [Demo.draws0; Demo.draws0]) = 2%nat.
Proof.
  apply (generate_batch_amounts Demo.generator [Demo.draws0; Demo.draws0]
           demo_generator_reachable).
  repeat constructor; vm_compute; try discriminate; reflexivity.
Defined.


Lemma tick_bookkeeping_witness :
  exists w',
    Simulation.tick Demo.world0 1700000000 Demo.clocks0 Demo.draws0 0
    = Some w'
    /\ Simulation.tx_generator w' = Demo.generator
    /\ Simulation.elapsed_seconds (Simulation.sim_state w') = (3 # 1)%Q.
Proof.
  destruct (tick_on_reachable Demo.world0 1700000000 Demo.clocks0
              Demo.draws0 0 demo_simulator_reachable) as (w' & Ht).
  exists w'. split; [exact Ht |].
  destruct (tick_bookkeeping Demo.world0 1700000000 Demo.clocks0
              Demo.draws0 0 w' Ht) as (Hgen & _ & Hel & _).
  split; [exact Hgen |]. rewrite Hel. reflexivity.
Defined.

Lemma tick_publishes_price_witness :
  exists w',
    Simulation.tick Demo.world0 1700000000 Demo.clocks0 Demo.draws0 0
    = Some w'
    /\ (PriceSimulator.floor_price
        <= Simulation.current_price (Simulation.sim_state w'))%Q.
Proof.
  destruct (tick_on_reachable Demo.world0 1700000000 Demo.clocks0
              Demo.draws0 0 demo_simulator_reachable) as (w' & Ht).
  exists w'. split; [exact Ht |].
  apply (tick_publishes_price Demo.world0 1700000000 Demo.clocks0
           Demo.draws0 0 w' Ht).
Defined.

Lemma tick_never_raises_witness :
  exists w',
    Simulation.tick Demo.world0 1700000000 Demo.clocks0 Demo.draws0 0
    = Some w'
    /\ reachable (Simulation.blockchain w').
Proof.
  destruct (tick_never_raises Demo.world0 1700000000 Demo.clocks0
              Demo.draws0 0 demo_simulator_reachable)
    as (w' & Ht & Hreach & _).
  exists w'. split; [exact Ht | exact Hreach].
Defined.
